(** * WIQL editor: type checking of conditions and variable completion

    A shallow embedding of
    [extension/scripts/wiqlEditor/wiqlErrorCheckers/TypeErrorChecker.ts]
    and of the variable completion module ([getStandardVariableSuggestions],
    [includeVariables], [getCurrentVariableSuggestions]).

    JavaScript objects used as dictionaries are finite maps over their own
    keys, and reading a key of a plain object also sees the properties that
    it inherits from [Object.prototype]; [undefined] is [None]; a thrown
    exception is the [Throw] branch of [Result]; arrays that are filled with
    [push] are lists threaded through the functions that fill them. *)

From Stdlib Require Import ZArith String Ascii List Lia.
From stdpp Require Import base decidable option list strings gmap fin_maps functions.

Local Open Scope Z_scope.

(** ** Enumerations of the collaborators *)

(** [FieldType] of TFS/WorkItemTracking/Contracts.  The ten members named by
    the checker are constructors; [Other n] is any further member of the
    numeric enum. *)
Module FieldType.
Inductive t : Set :=
  | String | Integer | DateTime | PlainText | Html
  | TreePath | History | Double | Guid | Boolean
  | Other (code : N).

#[global] Instance eq_dec : EqDecision t.
Proof. solve_decision. Defined.
End FieldType.

(** The classes of [compiler/wiqlSymbols] that the two modules name.  Every
    token is an instance of exactly one of them, so [x instanceof C] is the
    comparison of the class of [x] with [C].  [Other name] is any further
    class. *)
Module Symbols.
Inductive t : Set :=
  | Equals | NotEquals | GreaterThan | LessThan | GreaterOrEq | LessOrEq
  | InGroup | Ever | Contains | ContainsWords | Under | In
  | Number | String | True | False | Variable_ | Group | Identifier
  | Other (name : string).

#[global] Instance eq_dec : EqDecision t.
Proof. solve_decision. Defined.
End Symbols.

Module CompletionItemKind.
Inductive t : Set := Text | Keyword | Variable_.
End CompletionItemKind.

(** ** Syntax trees *)

Module Token.
Record t : Set := mk {
    cls : Symbols.t;
    line : Z;
    startColumn : Z;
    endColumn : Z;
    text : string
  }.
End Token.

Module Field.
Record t : Set := mk { identifier : Token.t }.
End Field.

(** What a [Value] wraps, and what a decoration is attached to: a token or a
    [Field] tree. *)
Inductive Symbol : Set :=
| TokenSymbol (token : Token.t)
| FieldSymbol (field : Field.t).

Module Value.
Record t : Set := mk { value : Symbol }.
End Value.

#[warnings="-register-all"]
Inductive ValueList : Set :=
| ValueListNode (value : Value.t) (restOfList : option ValueList).

Module ConditionalOperator.
Record t : Set := mk { conditionToken : Token.t }.
End ConditionalOperator.

(** The members of [ConditionalExpression] and [LinkCondition] that [check]
    reads; each of them is optional. *)
Module Condition.
Record t : Set := mk {
    field : option Field.t;
    conditionalOperator : option ConditionalOperator.t;
    value : option Value.t;
    valueList : option ValueList;
    inOperator : option Token.t
  }.
End Condition.

Inductive ConditionClass : Set := ConditionalExpression | LinkCondition.

Module WorkItemField.
Record t : Set := mk {
    name : string;
    referenceName : string;
    type : FieldType.t
  }.
End WorkItemField.

(** ** Results of the checker *)

Module IComparisonType.
Record t : Set := mk {
    fieldType : FieldType.t;
    literal : list Symbols.t;
    field : list Symbols.t;
    group : list Symbols.t
  }.
End IComparisonType.

(** [fieldLookup]: the own keys of the object; a key may hold [undefined]. *)
Abbreviation IFieldLookup := (gmap string (option IComparisonType.t)).

(** Modelled from the spec: [toDecoration] of errorDecorations is not part of
    the sources; a diagnostic is a source span and a message, and the span is
    kept as the symbol it is computed from. *)
Module Decoration.
Record t : Set := mk { target : Symbol; message : string }.
End Decoration.

Definition toDecoration (symbol : Symbol) (message : string) : Decoration.t :=
  Decoration.mk symbol message.

Inductive Error : Set :=
| TypeError
| UnexpectedFieldType (expectedType : option FieldType.t).

Inductive Result (A : Type) : Type :=
| Ok (a : A)
| Throw (e : Error).
Arguments Ok {A} a.
Arguments Throw {A} e.

#[global] Instance Result_ret : MRet Result := fun A a => Ok a.
#[global] Instance Result_bind : MBind Result := fun A B f r =>
  match r with
  | Ok a => f a
  | Throw e => Throw e
  end.

Inductive RhsType : Set := literal | field.

Definition rhsTypeName (rhsType : RhsType) : string :=
  match rhsType with
  | literal => "literal"
  | field => "field"
  end.

(** ** Collaborators that are not part of the sources *)

Class Externals : Type := {
  (** [String.prototype.toLocaleLowerCase] *)
  toLocaleLowerCase : string -> string;
  (** [Symbols.getSymbolName] *)
  getSymbolName : Symbols.t -> string;
  (** the reverse mapping [FieldType[t]] of the enum *)
  fieldTypeName : FieldType.t -> string;
  (** [definedVariables] of wiqlDefinition, in property order *)
  definedVariables : list (string * FieldType.t);
  (** the parse results and [symbolsOfType] of parseAnalysis/findSymbol *)
  IParseResults : Type;
  symbolsOfType : IParseResults -> ConditionClass -> list Condition.t
}.

(** [definedVariables[key]] *)
Fixpoint lookupVariable (table : list (string * FieldType.t)) (key : string)
  : option FieldType.t :=
  match table with
  | [] => None
  | (variable, type) :: rest =>
      if decide (variable = key) then Some type else lookupVariable rest key
  end.

(** ** TypeErrorChecker.ts *)

Definition CompTypes : Type := FieldType.t -> option IComparisonType.t.

Definition addCompTypes (types : list FieldType.t)
    (literal group field : list Symbols.t) (compTypes : CompTypes) : CompTypes :=
  foldl (fun acc fieldType =>
           <[fieldType := Some (IComparisonType.mk fieldType literal field group)]> acc)
        compTypes types.

Definition compTypes : CompTypes :=
  let c0 : CompTypes := fun _ => None in
  let c1 := addCompTypes [FieldType.Html; FieldType.PlainText; FieldType.History]
      [Symbols.Contains; Symbols.ContainsWords] [] [] c0 in
  let c2 := addCompTypes
      [FieldType.Double; FieldType.Integer; FieldType.DateTime; FieldType.Guid]
      [Symbols.Equals; Symbols.NotEquals; Symbols.GreaterThan; Symbols.LessThan;
       Symbols.GreaterOrEq; Symbols.LessOrEq; Symbols.Ever]
      [Symbols.In]
      [Symbols.Equals; Symbols.NotEquals; Symbols.GreaterThan; Symbols.LessThan;
       Symbols.GreaterOrEq; Symbols.LessOrEq] c1 in
  let c3 := addCompTypes [FieldType.String]
      [Symbols.Equals; Symbols.NotEquals; Symbols.GreaterThan; Symbols.LessThan;
       Symbols.GreaterOrEq; Symbols.LessOrEq; Symbols.Ever; Symbols.Contains;
       Symbols.InGroup]
      [Symbols.In]
      [Symbols.Equals; Symbols.NotEquals; Symbols.GreaterThan; Symbols.LessThan;
       Symbols.GreaterOrEq; Symbols.LessOrEq] c2 in
  let c4 := addCompTypes [FieldType.Boolean]
      [Symbols.Equals; Symbols.NotEquals; Symbols.Ever]
      []
      [Symbols.Equals; Symbols.NotEquals] c3 in
  addCompTypes [FieldType.TreePath]
      [Symbols.Equals; Symbols.NotEquals; Symbols.Under]
      [Symbols.In]
      [] c4.

(** The property names of [Object.prototype]: [fieldLookup] is created as
    [{}], so it inherits them. *)
Definition objectPrototypeKeys : list string :=
  ["constructor"; "__defineGetter__"; "__defineSetter__"; "hasOwnProperty";
   "__lookupGetter__"; "__lookupSetter__"; "isPrototypeOf";
   "propertyIsEnumerable"; "toString"; "valueOf"; "__proto__";
   "toLocaleString"].

(** What [fieldLookup[key]] evaluates to: the entry of an own key, a property
    inherited from [Object.prototype] (a function or an object, with none of
    the members of [IComparisonType]), or [undefined] (an own key that holds
    [undefined], or no property at all). *)
Inductive LookupValue : Set :=
| EntryValue (entry : IComparisonType.t)
| InheritedValue
| UndefinedValue.

Section Checker.
Context `{!Externals}.

(** One iteration of the loop of [getFieldComparisonLookup]: the key of the
    reference name is written first, then the key of the display name.  Both
    writes create or overwrite an own key; this holds for every key but
    [__proto__], which no field is taken to have as a name. *)
Definition addField (fieldLookup : IFieldLookup) (field : WorkItemField.t)
  : IFieldLookup :=
  let entry :=
    if decide ("System.Links.LinkType" = WorkItemField.referenceName field) then
      Some (IComparisonType.mk FieldType.String
              [Symbols.Equals; Symbols.NotEquals] [] [])
    else compTypes (WorkItemField.type field) in
  <[toLocaleLowerCase (WorkItemField.name field) := entry]>
    (<[toLocaleLowerCase (WorkItemField.referenceName field) := entry]> fieldLookup).

Definition getFieldComparisonLookup (fields : list WorkItemField.t) : IFieldLookup :=
  foldl addField ∅ fields.

(** [fieldLookup.hasOwnProperty(key)]: the keys that the loop above wrote. *)
Definition hasOwnKey (fieldLookup : IFieldLookup) (key : string) : bool :=
  bool_decide (is_Some (fieldLookup !! key)).

(** [key in fieldLookup]: an own key or an inherited one. *)
Definition keyIn (fieldLookup : IFieldLookup) (key : string) : bool :=
  hasOwnKey fieldLookup key || bool_decide (key ∈ objectPrototypeKeys).

(** [fieldLookup[key]]: an own key shadows an inherited one. *)
Definition getProperty (fieldLookup : IFieldLookup) (key : string) : LookupValue :=
  match fieldLookup !! key with
  | Some (Some entry) => EntryValue entry
  | Some None => UndefinedValue
  | None =>
      if bool_decide (key ∈ objectPrototypeKeys) then InheritedValue
      else UndefinedValue
  end.

(** [fieldLookup[key].fieldType]: a [TypeError] on [undefined], and
    [undefined] on an inherited property. *)
Definition lookupFieldType (fieldLookup : IFieldLookup) (key : string)
  : Result (option FieldType.t) :=
  match getProperty fieldLookup key with
  | EntryValue entry => Ok (Some (IComparisonType.fieldType entry))
  | InheritedValue => Ok None
  | UndefinedValue => Throw TypeError
  end.

(** [fieldLookup[key][member]] for a member that holds operators, likewise. *)
Definition lookupOps (fieldLookup : IFieldLookup) (key : string)
    (member : IComparisonType.t -> list Symbols.t)
  : Result (option (list Symbols.t)) :=
  match getProperty fieldLookup key with
  | EntryValue entry => Ok (Some (member entry))
  | InheritedValue => Ok None
  | UndefinedValue => Throw TypeError
  end.

(** The first member access on [validOps] ([validOps.length]): a [TypeError]
    on [undefined]. *)
Definition definedOps (validOps : option (list Symbols.t))
  : Result (list Symbols.t) :=
  match validOps with
  | Some ops => Ok ops
  | None => Throw TypeError
  end.

(** [FieldType[expectedType]] in a template string *)
Definition fieldTypeNameOf (expectedType : option FieldType.t) : string :=
  match expectedType with
  | Some type => fieldTypeName type
  | None => "undefined"
  end.

(** [entry[rhsType]] *)
Definition validOpsFor (entry : IComparisonType.t) (rhsType : RhsType)
  : list Symbols.t :=
  match rhsType with
  | literal => IComparisonType.literal entry
  | field => IComparisonType.field entry
  end.

(** [token instanceof symbolClass] *)
Definition tokenInstanceOf (token : Token.t) (symbolClass : Symbols.t) : bool :=
  bool_decide (Token.cls token = symbolClass).

(** [symbol instanceof symbolClass] for a token class *)
Definition instanceOf (symbol : Symbol) (symbolClass : Symbols.t) : bool :=
  match symbol with
  | TokenSymbol token => tokenInstanceOf token symbolClass
  | FieldSymbol _ => false
  end.

(** [symbol instanceof Symbols.Field] *)
Definition instanceOfField (symbol : Symbol) : bool :=
  match symbol with
  | TokenSymbol _ => false
  | FieldSymbol _ => true
  end.

(** The token of a symbol that is an instance of [Symbols.Variable]. *)
Definition asVariable (symbol : Symbol) : option Token.t :=
  match symbol with
  | TokenSymbol token =>
      if tokenInstanceOf token Symbols.Variable_ then Some token else None
  | FieldSymbol _ => None
  end.

Definition fieldKey (field : Field.t) : string :=
  toLocaleLowerCase (Token.text (Field.identifier field)).

Definition validComparisons (validOps : list Symbols.t) : string :=
  "Valid comparisons are " +:+ String.concat ", " (map getSymbolName validOps).

Definition checkComparisonOperator (fieldLookup : IFieldLookup)
    (comp : ConditionalOperator.t) (field : Field.t) (rhsType : RhsType)
  : Result (list Decoration.t) :=
  let operatorToken := ConditionalOperator.conditionToken comp in
  read ← lookupOps fieldLookup (fieldKey field)
            (fun entry => validOpsFor entry rhsType);
  validOps ← definedOps read;
  if Nat.eqb (length validOps) 0 then
    Ok [toDecoration (TokenSymbol operatorToken)
          ("There is no valid operation for "
             +:+ Token.text (Field.identifier field)
             +:+ " and " +:+ rhsTypeName rhsType)]
  else if Nat.eqb (length (List.filter (tokenInstanceOf operatorToken) validOps)) 0 then
    Ok [toDecoration (TokenSymbol operatorToken) (validComparisons validOps)]
  else Ok [].

Definition checkAllowsGroup (fieldLookup : IFieldLookup)
    (comp : Token.t) (field : Field.t) : Result (list Decoration.t) :=
  read ← lookupOps fieldLookup (fieldKey field) IComparisonType.group;
  validOps ← definedOps read;
  if Nat.eqb (length validOps) 0 then
    Ok [toDecoration (TokenSymbol comp)
          (Token.text (Field.identifier field)
             +:+ " does not support group comparisons")]
  else if Nat.eqb (length (List.filter (tokenInstanceOf comp) validOps)) 0 then
    Ok [toDecoration (TokenSymbol comp) (validComparisons validOps)]
  else Ok [].

(** The argument is [undefined] when it is the type of a variable that
    [definedVariables] does not hold. *)
Definition mapType (type : option FieldType.t) : Symbols.t :=
  match type with
  | Some FieldType.Integer | Some FieldType.Double => Symbols.Number
  | _ => Symbols.String
  end.

Definition checkRhsValue (value : Value.t) (expectedType : option FieldType.t)
  : Result (list Decoration.t) :=
  let symbolType := mapType expectedType in
  let error := toDecoration (Value.value value)
                 ("Expected value of type " +:+ getSymbolName symbolType) in
  match asVariable (Value.value value) with
  | Some variable =>
      let varType :=
        mapType (lookupVariable definedVariables
                   (toLocaleLowerCase (Token.text variable))) in
      Ok (if bool_decide (varType = symbolType) then [] else [error])
  | None =>
      match expectedType with
      | Some FieldType.String | Some FieldType.Integer | Some FieldType.DateTime
      | Some FieldType.PlainText | Some FieldType.Html | Some FieldType.TreePath
      | Some FieldType.History | Some FieldType.Double | Some FieldType.Guid =>
          Ok (if instanceOf (Value.value value) symbolType then [] else [error])
      | Some FieldType.Boolean =>
          Ok (if instanceOf (Value.value value) Symbols.True
                 || instanceOf (Value.value value) Symbols.False
              then []
              else [toDecoration (Value.value value) "Expected value of type BOOLEAN"])
      | Some (FieldType.Other _) | None => Throw (UnexpectedFieldType expectedType)
      end
  end.

(** The body of the [while] loop of [checkRhsGroup], from [currList] on, with
    the errors pushed so far. *)
Fixpoint checkRhsGroupFrom (currList : ValueList)
    (expectedType : option FieldType.t)
    (errors : list Decoration.t) : Result (list Decoration.t) :=
  match currList with
  | ValueListNode value restOfList =>
      pushed ←
        (if instanceOfField (Value.value value) then
           Ok (errors ++ [toDecoration (Value.value value)
                            "Values in list must be literals"])
         else
           valueErrors ← checkRhsValue value expectedType;
           Ok (errors ++ valueErrors));
      match restOfList with
      | Some rest => checkRhsGroupFrom rest expectedType pushed
      | None => Ok pushed
      end
  end.

Definition checkRhsGroup (valueList : ValueList)
    (expectedType : option FieldType.t)
  : Result (list Decoration.t) :=
  checkRhsGroupFrom valueList expectedType [].

Definition checkRhsField (fieldLookup : IFieldLookup) (targetField : Field.t)
    (expectedType : option FieldType.t) : Result (list Decoration.t) :=
  if keyIn fieldLookup (fieldKey targetField) then
    targetType ← lookupFieldType fieldLookup (fieldKey targetField);
    if bool_decide (targetType ≠ expectedType) then
      Ok [toDecoration (TokenSymbol (Field.identifier targetField))
            ("Expected field of type " +:+ fieldTypeNameOf expectedType)]
    else Ok []
  else Ok [].

Definition getRhsType (value : option Value.t) : RhsType :=
  match value with
  | Some v => if instanceOfField (Value.value v) then field else literal
  | None => literal
  end.

(** One iteration of the loop of [check]: the array [errors] before the
    iteration is mapped to the array after it; [continue] returns it as it
    is. *)
Definition checkCondition (fieldLookup : IFieldLookup) (condition : Condition.t)
    (errors : list Decoration.t) : Result (list Decoration.t) :=
  match Condition.field condition with
  | None => Ok errors
  | Some conditionField =>
      if negb (keyIn fieldLookup (fieldKey conditionField)) then Ok errors
      else
        type ← lookupFieldType fieldLookup (fieldKey conditionField);
        match Condition.conditionalOperator condition, Condition.value condition with
        | Some conditionalOperator, Some value =>
            let rhsType := getRhsType (Some value) in
            compErrors ←
              checkComparisonOperator fieldLookup conditionalOperator
                conditionField rhsType;
            if Nat.ltb 0 (length compErrors) then Ok (errors ++ compErrors)
            else
              match Value.value value with
              | FieldSymbol targetField =>
                  fieldErrors ← checkRhsField fieldLookup targetField type;
                  Ok (errors ++ fieldErrors)
              | TokenSymbol _ =>
                  valueErrors ← checkRhsValue value type;
                  Ok (errors ++ valueErrors)
              end
        | _, _ =>
            match Condition.valueList condition, Condition.inOperator condition with
            | Some valueList, Some inOperator =>
                groupErrors ← checkRhsGroup valueList type;
                allowErrors ← checkAllowsGroup fieldLookup inOperator conditionField;
                Ok ((errors ++ groupErrors) ++ allowErrors)
            | _, _ => Ok errors
            end
        end
  end.

(** The [for] loop of [check] over [allConditions]. *)
Fixpoint checkConditions (fieldLookup : IFieldLookup)
    (allConditions : list Condition.t) (errors : list Decoration.t)
  : Result (list Decoration.t) :=
  match allConditions with
  | [] => Ok errors
  | condition :: rest =>
      pushed ← checkCondition fieldLookup condition errors;
      checkConditions fieldLookup rest pushed
  end.

(** [check], once the cached field lookup has been obtained. *)
Definition check (fieldLookup : IFieldLookup) (parseResult : IParseResults)
  : Result (list Decoration.t) :=
  let allConditions :=
    symbolsOfType parseResult ConditionalExpression
      ++ symbolsOfType parseResult LinkCondition in
  checkConditions fieldLookup allConditions [].
End Checker.

(** ** Variable completion *)

Module CompletionItem.
Record t : Set := mk {
  label : string;
  kind : CompletionItemKind.t;
  insertText : option string
}.
End CompletionItem.

Module ParseNext.
Record t : Set := mk { expectedTokens : list string }.
End ParseNext.

Module ICompletionContext.
Record t : Set := mk {
  parseNext : ParseNext.t;
  prevToken : option Token.t;
  isInCondition : bool;
  fieldType : option FieldType.t
}.
End ICompletionContext.

Module Position.
Record t : Set := mk { lineNumber : Z; column : Z }.
End Position.

(** [Array.prototype.indexOf]: the first index of [x], or [-1]. *)
Fixpoint indexOf (l : list string) (x : string) : Z :=
  match l with
  | [] => -1
  | y :: rest =>
      if decide (y = x) then 0
      else let i := indexOf rest x in if i <? 0 then -1 else i + 1
  end.

(** [s.replace(searchValue, replaceValue)] with a string pattern: the first
    occurrence is replaced. *)
Fixpoint replace (searchValue replaceValue s : string) : string :=
  if String.prefix searchValue s then
    replaceValue +:+ String.substring (String.length searchValue)
                       (String.length s - String.length searchValue) s
  else
    match s with
    | EmptyString => EmptyString
    | String c rest => String c (replace searchValue replaceValue rest)
    end.

Section Completion.
Context `{!Externals}.

(** [type === null || definedVariables[variable] === type] *)
Definition variableHasType (type : option FieldType.t) (variable : string) : bool :=
  match type with
  | None => true
  | Some _ => bool_decide (lookupVariable definedVariables variable = type)
  end.

Definition getStandardVariableSuggestions (type : option FieldType.t)
  : list CompletionItem.t :=
  foldl (fun suggestions variable =>
           if variableHasType type variable then
             suggestions ++ [CompletionItem.mk variable CompletionItemKind.Variable_ None]
           else suggestions)
        [] (map fst definedVariables).

(** [ctx.isInCondition ? ctx.fieldType : null] *)
Definition typeFilter (ctx : ICompletionContext.t) : option FieldType.t :=
  if ICompletionContext.isInCondition ctx then ICompletionContext.fieldType ctx
  else None.

(** [ctx.prevToken instanceof symbolClass] *)
Definition prevTokenInstanceOf (ctx : ICompletionContext.t) (symbolClass : Symbols.t)
  : bool :=
  match ICompletionContext.prevToken ctx with
  | Some token => tokenInstanceOf token symbolClass
  | None => false
  end.

(** The array [suggestions] is returned as [includeVariables] leaves it. *)
Definition includeVariables (ctx : ICompletionContext.t)
    (suggestions : list CompletionItem.t) : list CompletionItem.t :=
  if (0 <=? indexOf (ParseNext.expectedTokens (ICompletionContext.parseNext ctx))
              (getSymbolName Symbols.Variable_))
     && negb (prevTokenInstanceOf ctx Symbols.Group)
  then suggestions ++ getStandardVariableSuggestions (typeFilter ctx)
  else suggestions.

(** The value the returned promise resolves to; [None] is [null]. *)
Definition getCurrentVariableSuggestions (ctx : ICompletionContext.t)
    (position : Position.t) : option (list CompletionItem.t) :=
  match ICompletionContext.prevToken ctx with
  | Some prevToken =>
      if tokenInstanceOf prevToken Symbols.Variable_
         && (Position.column position - 1 =? Token.endColumn prevToken)
      then
        Some (map (fun s =>
                     CompletionItem.mk (CompletionItem.label s)
                       CompletionItemKind.Variable_
                       (Some (replace "@" "" (CompletionItem.label s))))
                  (getStandardVariableSuggestions (typeFilter ctx)))
      else None
  | None => None
  end.
End Completion.

(** ** A concrete environment and sample inputs *)

Definition asciiLowerChar (c : ascii) : ascii :=
  let n := nat_of_ascii c in
  if Nat.leb 65 n && Nat.leb n 90 then ascii_of_nat (n + 32) else c.

(** Lower-casing of the ASCII letters, an instance of [toLocaleLowerCase]. *)
Fixpoint asciiLower (s : string) : string :=
  match s with
  | EmptyString => EmptyString
  | String c rest => String (asciiLowerChar c) (asciiLower rest)
  end.

(** Modelled from the spec: [getSymbolName] of the symbols module is not part
    of the sources; the spec's scenarios show the name of the numeric literal
    class as NUMBER, the upper-cased class name. *)
Definition symbolName (symbolClass : Symbols.t) : string :=
  match symbolClass with
  | Symbols.Equals => "EQUALS"
  | Symbols.NotEquals => "NOTEQUALS"
  | Symbols.GreaterThan => "GREATERTHAN"
  | Symbols.LessThan => "LESSTHAN"
  | Symbols.GreaterOrEq => "GREATEROREQ"
  | Symbols.LessOrEq => "LESSOREQ"
  | Symbols.InGroup => "INGROUP"
  | Symbols.Ever => "EVER"
  | Symbols.Contains => "CONTAINS"
  | Symbols.ContainsWords => "CONTAINSWORDS"
  | Symbols.Under => "UNDER"
  | Symbols.In => "IN"
  | Symbols.Number => "NUMBER"
  | Symbols.String => "STRING"
  | Symbols.True => "TRUE"
  | Symbols.False => "FALSE"
  | Symbols.Variable_ => "VARIABLE"
  | Symbols.Group => "GROUP"
  | Symbols.Identifier => "IDENTIFIER"
  | Symbols.Other name => name
  end.

Definition fieldTypeLabel (type : FieldType.t) : string :=
  match type with
  | FieldType.String => "String"
  | FieldType.Integer => "Integer"
  | FieldType.DateTime => "DateTime"
  | FieldType.PlainText => "PlainText"
  | FieldType.Html => "Html"
  | FieldType.TreePath => "TreePath"
  | FieldType.History => "History"
  | FieldType.Double => "Double"
  | FieldType.Guid => "Guid"
  | FieldType.Boolean => "Boolean"
  | FieldType.Other _ => "undefined"
  end.

(** The variable table of the spec's examples. *)
Definition sampleVariables : list (string * FieldType.t) :=
  [("@me", FieldType.String); ("@today", FieldType.DateTime)].

Definition sampleExternals : Externals := {|
  toLocaleLowerCase := asciiLower;
  getSymbolName := symbolName;
  fieldTypeName := fieldTypeLabel;
  definedVariables := sampleVariables;
  IParseResults := list Condition.t * list Condition.t;
  symbolsOfType := fun parseResult conditionClass =>
    match conditionClass with
    | ConditionalExpression => fst parseResult
    | LinkCondition => snd parseResult
    end
|}.

Definition effortField : WorkItemField.t :=
  WorkItemField.mk "Effort" "Microsoft.VSTS.Scheduling.Effort" FieldType.Double.
Definition activeField : WorkItemField.t :=
  WorkItemField.mk "Active" "Custom.Active" FieldType.Boolean.
Definition titleField : WorkItemField.t :=
  WorkItemField.mk "Title" "System.Title" FieldType.String.
Definition linkTypeField : WorkItemField.t :=
  WorkItemField.mk "Link Type" "System.Links.LinkType" FieldType.String.
(** A field whose display name collides with that of [linkTypeField]. *)
Definition shadowField : WorkItemField.t :=
  WorkItemField.mk "Link type" "Custom.LinkKind" FieldType.String.

Definition sampleLookup : IFieldLookup :=
  @getFieldComparisonLookup sampleExternals
    [effortField; activeField; titleField; linkTypeField].

Definition identifierToken (start : Z) (text : string) : Token.t :=
  Token.mk Symbols.Identifier 1 start (start + Z.of_nat (String.length text)) text.
Definition fieldOf (start : Z) (text : string) : Field.t :=
  Field.mk (identifierToken start text).

(** [[Effort] Contains [Effort]] *)
Definition containsToken : Token.t := Token.mk Symbols.Contains 1 9 17 "Contains".
Definition effortContainsEffort : Condition.t :=
  Condition.mk (Some (fieldOf 1 "Effort"))
    (Some (ConditionalOperator.mk containsToken))
    (Some (Value.mk (FieldSymbol (fieldOf 19 "Effort")))) None None.

(** [[Effort] = 'abc'] *)
Definition equalsToken : Token.t := Token.mk Symbols.Equals 1 9 10 "=".
Definition abcToken : Token.t := Token.mk Symbols.String 1 11 16 "'abc'".
Definition effortEqualsAbc : Condition.t :=
  Condition.mk (Some (fieldOf 1 "Effort"))
    (Some (ConditionalOperator.mk equalsToken))
    (Some (Value.mk (TokenSymbol abcToken))) None None.

(** [[Active] In ([Title])] *)
Definition inToken : Token.t := Token.mk Symbols.In 1 9 11 "In".
Definition titleInList : Value.t := Value.mk (FieldSymbol (fieldOf 14 "Title")).
Definition activeInTitle : Condition.t :=
  Condition.mk (Some (fieldOf 1 "Active")) None None
    (Some (ValueListNode titleInList None)) (Some inToken).

(** [[Unknown] = 'abc'], on a field that the lookup does not hold *)
Definition unknownEqualsAbc : Condition.t :=
  Condition.mk (Some (fieldOf 1 "Unknown"))
    (Some (ConditionalOperator.mk equalsToken))
    (Some (Value.mk (TokenSymbol abcToken))) None None.

(** [[Title] = @nobody], a variable that [sampleVariables] does not hold *)
Definition nobodyToken : Token.t := Token.mk Symbols.Variable_ 1 11 18 "@nobody".

(** The cursor right after [@to], inside a condition on a field that is not
    known. *)
Definition toToken : Token.t := Token.mk Symbols.Variable_ 1 11 14 "@to".
Definition untypedContext : ICompletionContext.t :=
  ICompletionContext.mk (ParseNext.mk ["VARIABLE"; "NUMBER"; "STRING"])
    (Some toToken) true None.
Definition dateContext : ICompletionContext.t :=
  ICompletionContext.mk (ParseNext.mk ["VARIABLE"; "NUMBER"; "STRING"])
    (Some toToken) true (Some FieldType.DateTime).

(** The suggestion [includeVariables] pushes for a variable. *)
Definition variableItem (variable : string) : CompletionItem.t :=
  CompletionItem.mk variable CompletionItemKind.Variable_ None.

(** The entry written for the link type field. *)
Definition linkTypeEntry : IComparisonType.t :=
  IComparisonType.mk FieldType.String [Symbols.Equals; Symbols.NotEquals] [] [].

(** The operators of the generic table for Integer, Double, DateTime and Guid
    against a field. *)
Definition orderedFieldOps : list Symbols.t :=
  [Symbols.Equals; Symbols.NotEquals; Symbols.GreaterThan; Symbols.LessThan;
   Symbols.GreaterOrEq; Symbols.LessOrEq].

(** The symbols that the elements of a value list wrap, in list order. *)
Fixpoint valueListSymbols (valueList : ValueList) : list Symbol :=
  match valueList with
  | ValueListNode value restOfList =>
      Value.value value ::
        match restOfList with
        | Some rest => valueListSymbols rest
        | None => []
        end
  end.

(** The ten members of [FieldType] with a case in [checkRhsValue]. *)
Definition handledTypes : list FieldType.t :=
  [FieldType.String; FieldType.Integer; FieldType.DateTime; FieldType.PlainText;
   FieldType.Html; FieldType.TreePath; FieldType.History; FieldType.Double;
   FieldType.Guid; FieldType.Boolean].

(** ** Definitions for the further properties *)

(** [operationLookup]: the table is kept in the order of the object literal;
    a target is one of the strings "literal", "field" and "group". *)
Definition operationLookup : list (string * (string * Symbols.t)) :=
  [("=", ("literal", Symbols.Equals));
   ("<>", ("literal", Symbols.NotEquals));
   (">", ("literal", Symbols.GreaterThan));
   ("<", ("literal", Symbols.LessThan));
   (">=", ("literal", Symbols.GreaterOrEq));
   ("<=", ("literal", Symbols.LessOrEq));
   ("In Group", ("literal", Symbols.InGroup));
   ("Was Ever", ("literal", Symbols.Ever));
   ("Contains", ("literal", Symbols.Contains));
   ("Contains Words", ("literal", Symbols.ContainsWords));
   ("Under", ("literal", Symbols.Under));
   ("In", ("group", Symbols.In));
   ("= [Field]", ("field", Symbols.Equals));
   ("<> [Field]", ("field", Symbols.NotEquals));
   ("> [Field]", ("field", Symbols.GreaterThan));
   ("< [Field]", ("field", Symbols.LessThan));
   (">= [Field]", ("field", Symbols.GreaterOrEq));
   ("<= [Field]", ("field", Symbols.LessOrEq))].

(** [entry[target]] for a target of [operationLookup]. *)
Definition opsForTarget (entry : IComparisonType.t) (target : string)
  : list Symbols.t :=
  if decide (target = "literal") then IComparisonType.literal entry
  else if decide (target = "field") then IComparisonType.field entry
  else if decide (target = "group") then IComparisonType.group entry
  else [].

(** The value [getFieldComparisonLookup] writes for a field. *)
Definition fieldEntry (field : WorkItemField.t) : option IComparisonType.t :=
  if decide ("System.Links.LinkType" = WorkItemField.referenceName field) then
    Some linkTypeEntry
  else compTypes (WorkItemField.type field).

(** The values that a value list holds, in list order. *)
Fixpoint valueListValues (valueList : ValueList) : list Value.t :=
  match valueList with
  | ValueListNode value restOfList =>
      value ::
        match restOfList with
        | Some rest => valueListValues rest
        | None => []
        end
  end.

(** A type that [mapType] sends to [Symbols.Number]. *)
Definition numericType (type : FieldType.t) : Prop :=
  type = FieldType.Integer \/ type = FieldType.Double.

(** Further sample inputs *)


(** The entries of the table for Double, Boolean and String. *)
Definition doubleEntry : IComparisonType.t :=
  IComparisonType.mk FieldType.Double
    [Symbols.Equals; Symbols.NotEquals; Symbols.GreaterThan; Symbols.LessThan;
     Symbols.GreaterOrEq; Symbols.LessOrEq; Symbols.Ever]
    orderedFieldOps [Symbols.In].
Definition booleanEntry : IComparisonType.t :=
  IComparisonType.mk FieldType.Boolean
    [Symbols.Equals; Symbols.NotEquals; Symbols.Ever]
    [Symbols.Equals; Symbols.NotEquals] [].
Definition stringEntry : IComparisonType.t :=
  IComparisonType.mk FieldType.String
    [Symbols.Equals; Symbols.NotEquals; Symbols.GreaterThan; Symbols.LessThan;
     Symbols.GreaterOrEq; Symbols.LessOrEq; Symbols.Ever; Symbols.Contains;
     Symbols.InGroup]
    orderedFieldOps [Symbols.In].


(** [[Link Type] = [Title]] *)
Definition linkTypeEqualsTitle : Condition.t :=
  Condition.mk (Some (fieldOf 1 "Link Type"))
    (Some (ConditionalOperator.mk equalsToken))
    (Some (Value.mk (FieldSymbol (fieldOf 15 "Title")))) None None.

(** [[Title] = [Effort]] *)
Definition titleEqualsEffort : Condition.t :=
  Condition.mk (Some (fieldOf 1 "Title"))
    (Some (ConditionalOperator.mk equalsToken))
    (Some (Value.mk (FieldSymbol (fieldOf 11 "Effort")))) None None.

(** [[constructor] = 'abc'], on a name that [Object.prototype] holds *)
Definition constructorEqualsAbc : Condition.t :=
  Condition.mk (Some (fieldOf 1 "constructor"))
    (Some (ConditionalOperator.mk equalsToken))
    (Some (Value.mk (TokenSymbol abcToken))) None None.

(** [[Title] = [constructor]] *)
Definition titleEqualsConstructor : Condition.t :=
  Condition.mk (Some (fieldOf 1 "Title"))
    (Some (ConditionalOperator.mk equalsToken))
    (Some (Value.mk (FieldSymbol (fieldOf 11 "constructor")))) None None.

Definition meToken : Token.t := Token.mk Symbols.Variable_ 1 11 14 "@me".
Definition sevenToken : Token.t := Token.mk Symbols.Number 1 30 31 "7".

(** The value list [('abc', [Title], 7)] *)
Definition mixedList : ValueList :=
  ValueListNode (Value.mk (TokenSymbol abcToken))
    (Some (ValueListNode titleInList
             (Some (ValueListNode (Value.mk (TokenSymbol sevenToken)) None)))).

Section FurtherDefinitions.
Context `{!Externals}.

(** The two keys that [getFieldComparisonLookup] writes for a field. *)
Definition fieldKeys (field : WorkItemField.t) : list string :=
  [toLocaleLowerCase (WorkItemField.referenceName field);
   toLocaleLowerCase (WorkItemField.name field)].

Definition writesKey (key : string) (field : WorkItemField.t) : bool :=
  bool_decide (In key (fieldKeys field)).

(** The decorations that one iteration of the loop of [checkRhsGroup] pushes
    for an element, when the value check of the element returns. *)
Definition elementErrors (expectedType : FieldType.t) (value : Value.t)
  : list Decoration.t :=
  if instanceOfField (Value.value value) then
    [toDecoration (Value.value value) "Values in list must be literals"]
  else
    match checkRhsValue value (Some expectedType) with
    | Ok valueErrors => valueErrors
    | Throw _ => []
    end.
End FurtherDefinitions.

(** * Properties *)

Lemma ValueList_induction (P : ValueList -> Prop) :
  (forall value, P (ValueListNode value None)) ->
  (forall value rest, P rest -> P (ValueListNode value (Some rest))) ->
  forall valueList, P valueList.
Proof.
  intros Hlast Hnode. fix IH 1.
  intros [value [rest|]].
  - apply Hnode, IH.
  - apply Hlast.
Qed.

Section Properties.
Context `{!Externals}.

(** ** The field lookup *)

Lemma getProperty_entry (fieldLookup : IFieldLookup) key entry :
  fieldLookup !! key = Some (Some entry) ->
  getProperty fieldLookup key = EntryValue entry.
Proof. intros Hkey. unfold getProperty. by rewrite Hkey. Qed.

Lemma getProperty_entry_inv (fieldLookup : IFieldLookup) key entry :
  getProperty fieldLookup key = EntryValue entry ->
  fieldLookup !! key = Some (Some entry).
Proof.
  unfold getProperty. destruct (fieldLookup !! key) as [[other|]|];
    [congruence|discriminate|by case_match].
Qed.

Lemma lookupFieldType_entry (fieldLookup : IFieldLookup) key entry :
  fieldLookup !! key = Some (Some entry) ->
  lookupFieldType fieldLookup key = Ok (Some (IComparisonType.fieldType entry)).
Proof.
  intros Hkey. unfold lookupFieldType. by rewrite (getProperty_entry _ _ _ Hkey).
Qed.

Lemma lookupOps_entry (fieldLookup : IFieldLookup) key member entry :
  fieldLookup !! key = Some (Some entry) ->
  lookupOps fieldLookup key member = Ok (Some (member entry)).
Proof.
  intros Hkey. unfold lookupOps. by rewrite (getProperty_entry _ _ _ Hkey).
Qed.

Lemma hasOwnKey_true (fieldLookup : IFieldLookup) key value :
  fieldLookup !! key = Some value -> hasOwnKey fieldLookup key = true.
Proof.
  intros Hkey. unfold hasOwnKey. apply bool_decide_eq_true. by rewrite Hkey.
Qed.


Lemma keyIn_own (fieldLookup : IFieldLookup) key value :
  fieldLookup !! key = Some value -> keyIn fieldLookup key = true.
Proof. intros Hkey. unfold keyIn. by rewrite (hasOwnKey_true _ _ _ Hkey). Qed.

Lemma keyIn_inherited (fieldLookup : IFieldLookup) key :
  In key objectPrototypeKeys -> keyIn fieldLookup key = true.
Proof.
  intros Hin. unfold keyIn. rewrite (bool_decide_eq_true_2 (key ∈ objectPrototypeKeys)).
  - apply orb_true_r.
  - by apply list_elem_of_In.
Qed.

(** A key that [in] does not find is neither an own key nor inherited. *)
Lemma keyIn_false (fieldLookup : IFieldLookup) key :
  keyIn fieldLookup key = false
  <-> fieldLookup !! key = None /\ ~ In key objectPrototypeKeys.
Proof.
  unfold keyIn, hasOwnKey. rewrite orb_false_iff, !bool_decide_eq_false.
  rewrite list_elem_of_In, <- eq_None_not_Some. tauto.
Qed.

Lemma getProperty_inherited (fieldLookup : IFieldLookup) key :
  fieldLookup !! key = None -> In key objectPrototypeKeys ->
  getProperty fieldLookup key = InheritedValue.
Proof.
  intros Hkey Hin. unfold getProperty. rewrite Hkey.
  rewrite bool_decide_eq_true_2; [done|]. by apply list_elem_of_In.
Qed.

(** A field that is the link type field, or that writes neither of its two
    keys, leaves a link type entry under [key] in place. *)
Lemma addField_keeps_link_entry (fieldLookup : IFieldLookup) other key :
  fieldLookup !! key = Some (Some linkTypeEntry) ->
  (WorkItemField.referenceName other <> "System.Links.LinkType" ->
   toLocaleLowerCase (WorkItemField.name other) <> key
   /\ toLocaleLowerCase (WorkItemField.referenceName other) <> key) ->
  addField fieldLookup other !! key = Some (Some linkTypeEntry).
Proof.
  intros Hkey Hother. unfold addField.
  destruct (decide ("System.Links.LinkType" = WorkItemField.referenceName other))
    as [Hlink|Hlink].
  - rewrite !lookup_insert. repeat case_decide; done.
  - destruct Hother as [Hname Href]; [congruence|].
    by rewrite !lookup_insert_ne.
Qed.

Lemma foldl_addField_keeps_link_entry post : forall (fieldLookup : IFieldLookup) key,
  fieldLookup !! key = Some (Some linkTypeEntry) ->
  (forall other, In other post ->
     WorkItemField.referenceName other <> "System.Links.LinkType" ->
     toLocaleLowerCase (WorkItemField.name other) <> key
     /\ toLocaleLowerCase (WorkItemField.referenceName other) <> key) ->
  foldl addField fieldLookup post !! key = Some (Some linkTypeEntry).
Proof.
  induction post as [|other post IH]; intros fieldLookup key Hkey Hpost; [done|].
  simpl. apply IH.
  - apply addField_keeps_link_entry; [done|]. apply Hpost. by left.
  - intros later Hin. apply Hpost. by right.
Qed.

(** C5, as the code has it: the link type field's two keys, the lower-cased
    display name and the lower-cased reference name, hold the entry with
    type String, literal operators Equals and NotEquals and no field or
    group operator, whatever the generic table holds for String, as long as
    no field later in the list that is not a link type field itself writes
    one of these two keys (the last write of a key wins). *)
Theorem link_type_entry_last_write pre linkField post :
  WorkItemField.referenceName linkField = "System.Links.LinkType" ->
  (forall other, In other post ->
     WorkItemField.referenceName other <> "System.Links.LinkType" ->
     forall key,
       In key [toLocaleLowerCase (WorkItemField.name linkField);
               toLocaleLowerCase (WorkItemField.referenceName linkField)] ->
       toLocaleLowerCase (WorkItemField.name other) <> key
       /\ toLocaleLowerCase (WorkItemField.referenceName other) <> key) ->
  let hardCoded :=
    IComparisonType.mk FieldType.String [Symbols.Equals; Symbols.NotEquals] [] [] in
  let fieldLookup := getFieldComparisonLookup (pre ++ linkField :: post) in
  fieldLookup !! toLocaleLowerCase (WorkItemField.name linkField)
    = Some (Some hardCoded)
  /\ fieldLookup !! toLocaleLowerCase (WorkItemField.referenceName linkField)
    = Some (Some hardCoded).
Proof.
  intros Hlink Hpost hardCoded fieldLookup. subst fieldLookup.
  unfold getFieldComparisonLookup. rewrite foldl_app. simpl.
  split; apply foldl_addField_keeps_link_entry.
  - unfold addField. rewrite Hlink. rewrite decide_True by done.
    by rewrite lookup_insert_eq.
  - intros other Hin Hne. apply Hpost; [done|done|by left].
  - unfold addField. rewrite Hlink. rewrite decide_True by done.
    rewrite lookup_insert. case_decide; [done|]. by rewrite lookup_insert_eq.
  - intros other Hin Hne. apply Hpost; [done|done|]. right. by left.
Qed.

(** ** The operator check *)

Lemma checkComparisonOperator_entry (fieldLookup : IFieldLookup) comp conditionField
    rhsType entry :
  fieldLookup !! fieldKey conditionField = Some (Some entry) ->
  checkComparisonOperator fieldLookup comp conditionField rhsType =
    let operatorToken := ConditionalOperator.conditionToken comp in
    let validOps := validOpsFor entry rhsType in
    if Nat.eqb (length validOps) 0 then
      Ok [toDecoration (TokenSymbol operatorToken)
            ("There is no valid operation for "
               +:+ Token.text (Field.identifier conditionField)
               +:+ " and " +:+ rhsTypeName rhsType)]
    else if Nat.eqb (length (List.filter (tokenInstanceOf operatorToken) validOps)) 0 then
      Ok [toDecoration (TokenSymbol operatorToken) (validComparisons validOps)]
    else Ok [].
Proof.
  intros Hentry. unfold checkComparisonOperator.
  by rewrite (lookupOps_entry _ _ _ _ Hentry).
Qed.

(** The operator check returns at most one decoration, on the operator. *)
Lemma checkComparisonOperator_shape (fieldLookup : IFieldLookup) comp conditionField
    rhsType compErrors :
  checkComparisonOperator fieldLookup comp conditionField rhsType = Ok compErrors ->
  (exists entry, fieldLookup !! fieldKey conditionField = Some (Some entry))
  /\ (compErrors = []
      \/ exists message,
           compErrors =
             [toDecoration (TokenSymbol (ConditionalOperator.conditionToken comp))
                message]).
Proof.
  unfold checkComparisonOperator, lookupOps.
  destruct (getProperty fieldLookup (fieldKey conditionField)) as [entry| |]
    eqn:Hentry; simpl; [|discriminate|discriminate].
  intros Hcheck. split; [exists entry; by apply getProperty_entry_inv|].
  repeat case_match; inversion Hcheck; eauto.
Qed.

Lemma compTypes_ordered type :
  In type [FieldType.Integer; FieldType.Double; FieldType.DateTime; FieldType.Guid] ->
  exists entry,
    compTypes type = Some entry
    /\ IComparisonType.fieldType entry = type
    /\ IComparisonType.field entry = orderedFieldOps.
Proof.
  intros Hin. simpl in Hin.
  destruct Hin as [<-|[<-|[<-|[<-|[]]]]]; eexists; (split; [reflexivity|done]).
Qed.

(** C1, as the code has it: on a field of type Integer, Double, DateTime or
    Guid, a scalar condition whose right-hand side is a field reference and
    whose operator is Contains gets the diagnostic that lists the valid
    comparisons (the six ordering operators), on the operator token: the
    operators against a field are not empty for these types. *)
Theorem contains_against_field_lists_valid_comparisons
    (fieldLookup : IFieldLookup) condition conditionField comp value targetField
    type errors :
  In type [FieldType.Integer; FieldType.Double; FieldType.DateTime; FieldType.Guid] ->
  Condition.field condition = Some conditionField ->
  fieldLookup !! fieldKey conditionField = Some (compTypes type) ->
  Condition.conditionalOperator condition = Some comp ->
  Token.cls (ConditionalOperator.conditionToken comp) = Symbols.Contains ->
  Condition.value condition = Some value ->
  Value.value value = FieldSymbol targetField ->
  checkCondition fieldLookup condition errors =
    Ok (errors ++
          [toDecoration (TokenSymbol (ConditionalOperator.conditionToken comp))
             ("Valid comparisons are " +:+
                String.concat ", "
                  (map getSymbolName
                     [Symbols.Equals; Symbols.NotEquals; Symbols.GreaterThan;
                      Symbols.LessThan; Symbols.GreaterOrEq; Symbols.LessOrEq]))]).
Proof.
  intros Htype Hfield Hlookup Hcomp Hcontains Hvalue Htarget.
  destruct (compTypes_ordered type Htype) as (entry & Hentry & _ & Hops).
  rewrite Hentry in Hlookup.
  unfold checkCondition. rewrite Hfield, (keyIn_own _ _ _ Hlookup). simpl.
  rewrite (lookupFieldType_entry _ _ _ Hlookup). simpl.
  rewrite Hcomp, Hvalue.
  rewrite (checkComparisonOperator_entry _ _ _ _ _ Hlookup).
  unfold getRhsType. rewrite Htarget. simpl. rewrite Hops.
  unfold tokenInstanceOf. rewrite Hcontains. reflexivity.
Qed.

(** ** The checks of the right-hand side *)

Lemma asVariable_None symbol :
  instanceOf symbol Symbols.Variable_ = false -> asVariable symbol = None.
Proof. destruct symbol as [token|target]; simpl; [|done]. by intros ->. Qed.

Lemma asVariable_Some token :
  Token.cls token = Symbols.Variable_ -> asVariable (TokenSymbol token) = Some token.
Proof.
  intros Hcls. simpl. unfold tokenInstanceOf. by rewrite bool_decide_eq_true_2.
Qed.

(** On a handled type the value check returns, with at most one decoration,
    on the value. *)
Lemma checkRhsValue_handled value expectedType :
  In expectedType handledTypes ->
  exists valueErrors,
    checkRhsValue value (Some expectedType) = Ok valueErrors
    /\ Forall (fun d => Decoration.target d = Value.value value) valueErrors.
Proof.
  intros Hin. unfold checkRhsValue.
  destruct (asVariable (Value.value value)) as [variable|].
  - eexists. split; [reflexivity|]. case_match; repeat constructor.
  - simpl in Hin.
    destruct Hin as [<-|[<-|[<-|[<-|[<-|[<-|[<-|[<-|[<-|[<-|[]]]]]]]]]]];
      (eexists; split; [reflexivity|]; case_match; repeat constructor).
Qed.

Lemma checkRhsGroupFrom_handled expectedType valueList :
  In expectedType handledTypes ->
  forall errors, exists groupErrors,
    checkRhsGroupFrom valueList (Some expectedType) errors
    = Ok (errors ++ groupErrors)
    /\ Forall (fun d => In (Decoration.target d) (valueListSymbols valueList))
         groupErrors.
Proof.
  intros Hin. induction valueList as [value|value rest IH] using ValueList_induction;
    intros errors; simpl.
  - destruct (instanceOfField (Value.value value)); simpl.
    + eexists. split; [reflexivity|]. repeat constructor.
    + destruct (checkRhsValue_handled value expectedType Hin) as (es & -> & Hes).
      simpl. exists es. split; [done|].
      eapply List.Forall_impl; [|exact Hes]. intros d ->. by left.
  - destruct (instanceOfField (Value.value value)); simpl.
    + destruct (IH (errors ++ [toDecoration (Value.value value)
                                 "Values in list must be literals"]))
        as (es & -> & Hes).
      eexists. split; [by rewrite <- app_assoc|].
      constructor; [by left|].
      eapply List.Forall_impl; [|exact Hes]. intros d Hd. by right.
    + destruct (checkRhsValue_handled value expectedType Hin) as (vs & -> & Hvs).
      simpl. destruct (IH (errors ++ vs)) as (es & -> & Hes).
      exists (vs ++ es). split; [by rewrite <- app_assoc|].
      apply Forall_app. split.
      * eapply List.Forall_impl; [|exact Hvs]. intros d ->. by left.
      * eapply List.Forall_impl; [|exact Hes]. intros d Hd. by right.
Qed.

Lemma checkAllowsGroup_shape (fieldLookup : IFieldLookup) comp conditionField entry :
  fieldLookup !! fieldKey conditionField = Some (Some entry) ->
  exists allowErrors,
    checkAllowsGroup fieldLookup comp conditionField = Ok allowErrors
    /\ Forall (fun d => Decoration.target d = TokenSymbol comp) allowErrors.
Proof.
  intros Hentry. unfold checkAllowsGroup.
  rewrite (lookupOps_entry _ _ _ _ Hentry). simpl.
  repeat case_match; eexists; (split; [reflexivity|]); repeat constructor.
Qed.

(** C2, as the code has it: for a condition in group form (an in-operator and
    a value list, and not an operator with a single value) on a field that
    the lookup holds with a handled type, the list-element check runs first
    and the group-membership check second: the decorations on the elements
    of the list come before the decoration on the in-operator. *)
Theorem group_condition_list_errors_first
    (fieldLookup : IFieldLookup) condition conditionField entry valueList
    inOperator errors :
  Condition.field condition = Some conditionField ->
  fieldLookup !! fieldKey conditionField = Some (Some entry) ->
  In (IComparisonType.fieldType entry) handledTypes ->
  Condition.conditionalOperator condition = None \/ Condition.value condition = None ->
  Condition.valueList condition = Some valueList ->
  Condition.inOperator condition = Some inOperator ->
  exists groupErrors allowErrors,
    checkRhsGroup valueList (Some (IComparisonType.fieldType entry))
    = Ok groupErrors
    /\ checkAllowsGroup fieldLookup inOperator conditionField = Ok allowErrors
    /\ checkCondition fieldLookup condition errors
       = Ok (errors ++ groupErrors ++ allowErrors)
    /\ Forall (fun d => In (Decoration.target d) (valueListSymbols valueList))
         groupErrors
    /\ Forall (fun d => Decoration.target d = TokenSymbol inOperator) allowErrors.
Proof.
  intros Hfield Hentry Hhandled Hscalar Hlist Hin.
  destruct (checkRhsGroupFrom_handled _ valueList Hhandled [])
    as (groupErrors & Hgroup & Htargets).
  destruct (checkAllowsGroup_shape _ inOperator _ _ Hentry)
    as (allowErrors & Hallow & Hop).
  exists groupErrors, allowErrors.
  split; [exact Hgroup|]. split; [exact Hallow|]. split; [|done].
  unfold checkCondition.
  rewrite Hfield, (keyIn_own _ _ _ Hentry). simpl.
  rewrite (lookupFieldType_entry _ _ _ Hentry). simpl.
  rewrite Hlist, Hin. unfold checkRhsGroup in Hgroup.
  assert (Hpush :
    (groupErrors ← checkRhsGroup valueList (Some (IComparisonType.fieldType entry));
     allowErrors ← checkAllowsGroup fieldLookup inOperator conditionField;
     Ok ((errors ++ groupErrors) ++ allowErrors))
    = Ok (errors ++ groupErrors ++ allowErrors)).
  { unfold checkRhsGroup. rewrite Hgroup. simpl. rewrite Hallow. simpl.
    by rewrite <- app_assoc. }
  destruct Hscalar as [-> | ->]; [exact Hpush|].
  by destruct (Condition.conditionalOperator condition).
Qed.

(** C3: in a scalar condition whose operator check passed and whose
    right-hand side is a literal (a token that is not a variable), the value
    check follows the type mapping: Integer and Double expect a Number token,
    Boolean expects a True or a False token and has its own message, each of
    the seven other handled types expects a String token. *)
Theorem literal_value_follows_type_mapping
    (fieldLookup : IFieldLookup) condition conditionField entry comp value token
    errors :
  Condition.field condition = Some conditionField ->
  fieldLookup !! fieldKey conditionField = Some (Some entry) ->
  Condition.conditionalOperator condition = Some comp ->
  Condition.value condition = Some value ->
  Value.value value = TokenSymbol token ->
  Token.cls token <> Symbols.Variable_ ->
  checkComparisonOperator fieldLookup comp conditionField literal = Ok [] ->
  let type := IComparisonType.fieldType entry in
  let expected symbolClass :=
    toDecoration (TokenSymbol token)
      ("Expected value of type " +:+ getSymbolName symbolClass) in
  (In type [FieldType.Integer; FieldType.Double] ->
   checkCondition fieldLookup condition errors =
     Ok (errors ++ if decide (Token.cls token = Symbols.Number) then []
                   else [expected Symbols.Number]))
  /\ (type = FieldType.Boolean ->
      checkCondition fieldLookup condition errors =
        Ok (errors ++
              if decide (Token.cls token = Symbols.True
                         \/ Token.cls token = Symbols.False) then []
              else [toDecoration (TokenSymbol token) "Expected value of type BOOLEAN"]))
  /\ (In type [FieldType.String; FieldType.DateTime; FieldType.PlainText;
               FieldType.Html; FieldType.TreePath; FieldType.History;
               FieldType.Guid] ->
      checkCondition fieldLookup condition errors =
        Ok (errors ++ if decide (Token.cls token = Symbols.String) then []
                      else [expected Symbols.String])).
Proof.
  intros Hfield Hentry Hcomp Hvalue Htoken Hliteral Hpassed type expected.
  assert (Hcheck : checkCondition fieldLookup condition errors =
                   (valueErrors ← checkRhsValue value (Some type);
                    Ok (errors ++ valueErrors))).
  { unfold checkCondition.
    rewrite Hfield, (keyIn_own _ _ _ Hentry). simpl.
    rewrite (lookupFieldType_entry _ _ _ Hentry). simpl.
    rewrite Hcomp, Hvalue. unfold getRhsType. rewrite Htoken. simpl.
    rewrite Hpassed. simpl. reflexivity. }
  assert (Hvar : asVariable (Value.value value) = None).
  { apply asVariable_None. rewrite Htoken. simpl.
    by apply bool_decide_eq_false. }
  rewrite Hcheck. unfold checkRhsValue. rewrite Hvar, Htoken.
  subst expected. simpl. unfold tokenInstanceOf.
  split; [|split].
  - intros [Htype|[Htype|[]]]; rewrite <- Htype; simpl;
      by destruct (decide (Token.cls token = Symbols.Number)) as [Heq|Hne];
        [rewrite bool_decide_eq_true_2|rewrite bool_decide_eq_false_2].
  - intros ->. simpl.
    destruct (decide (Token.cls token = Symbols.True
                      \/ Token.cls token = Symbols.False)) as [[Heq|Heq]|Hne].
    + by rewrite (bool_decide_eq_true_2 _ Heq).
    + rewrite (bool_decide_eq_true_2 _ Heq). by rewrite orb_true_r.
    + rewrite !bool_decide_eq_false_2; [done|tauto|tauto].
  - intros [Htype|[Htype|[Htype|[Htype|[Htype|[Htype|[Htype|[]]]]]]]];
      rewrite <- Htype; simpl;
      by destruct (decide (Token.cls token = Symbols.String)) as [Heq|Hne];
        [rewrite bool_decide_eq_true_2|rewrite bool_decide_eq_false_2].
Qed.

(** ** The loop of [check] *)

Lemma checkConditions_app (fieldLookup : IFieldLookup) pre : forall post errors,
  checkConditions fieldLookup (pre ++ post) errors =
    (pushed ← checkConditions fieldLookup pre errors;
     checkConditions fieldLookup post pushed).
Proof.
  induction pre as [|condition pre IH]; intros post errors; simpl; [done|].
  destruct (checkCondition fieldLookup condition errors) as [pushed|e]; simpl;
    [apply IH|done].
Qed.

Lemma checkCondition_append (fieldLookup : IFieldLookup) condition errors :
  checkCondition fieldLookup condition errors =
    (pushed ← checkCondition fieldLookup condition []; Ok (errors ++ pushed)).
Proof.
  unfold checkCondition.
  destruct (Condition.field condition) as [conditionField|];
    [|simpl; by rewrite app_nil_r].
  destruct (keyIn fieldLookup (fieldKey conditionField)); simpl;
    [|by rewrite app_nil_r].
  destruct (lookupFieldType fieldLookup (fieldKey conditionField)) as [type|e];
    simpl; [|done].
  destruct (Condition.conditionalOperator condition) as [comp|],
           (Condition.value condition) as [value|].
  - destruct (checkComparisonOperator fieldLookup comp conditionField
                (if instanceOfField (Value.value value) then field else literal))
      as [compErrors|e]; simpl; [|done].
    destruct (Nat.ltb 0 (length compErrors)); [done|].
    destruct (Value.value value) as [token|targetField].
    + by destruct (checkRhsValue value type).
    + by destruct (checkRhsField fieldLookup targetField
                     type).
  - destruct (Condition.valueList condition) as [valueList|],
             (Condition.inOperator condition) as [inOperator|];
      simpl; rewrite ?app_nil_r; try done.
    destruct (checkRhsGroup valueList type); simpl;
      [|done].
    destruct (checkAllowsGroup fieldLookup inOperator conditionField); simpl;
      [|done].
    by rewrite app_assoc.
  - destruct (Condition.valueList condition) as [valueList|],
             (Condition.inOperator condition) as [inOperator|];
      simpl; rewrite ?app_nil_r; try done.
    destruct (checkRhsGroup valueList type); simpl;
      [|done].
    destruct (checkAllowsGroup fieldLookup inOperator conditionField); simpl;
      [|done].
    by rewrite app_assoc.
  - destruct (Condition.valueList condition) as [valueList|],
             (Condition.inOperator condition) as [inOperator|];
      simpl; rewrite ?app_nil_r; try done.
    destruct (checkRhsGroup valueList type); simpl;
      [|done].
    destruct (checkAllowsGroup fieldLookup inOperator conditionField); simpl;
      [|done].
    by rewrite app_assoc.
Qed.

Lemma checkConditions_append (fieldLookup : IFieldLookup) allConditions :
  forall errors,
    checkConditions fieldLookup allConditions errors =
      (pushed ← checkConditions fieldLookup allConditions []; Ok (errors ++ pushed)).
Proof.
  induction allConditions as [|condition rest IH]; intros errors; simpl;
    [by rewrite app_nil_r|].
  rewrite checkCondition_append.
  destruct (checkCondition fieldLookup condition []) as [pushed|e]; simpl; [|done].
  rewrite IH, (IH pushed).
  destruct (checkConditions fieldLookup rest []) as [later|e]; simpl; [|done].
  by rewrite app_assoc.
Qed.

(** C4: when the operator check of a scalar condition returns a decoration,
    the iteration pushes that decoration, which is on the operator token, and
    nothing else (neither the decoration of the field type check nor that of
    the value check), and the remaining conditions are still checked: the
    decorations of a list that holds the condition are those of the
    conditions before it, the decoration of the operator, and those of the
    conditions after it. *)
Theorem operator_error_short_circuits
    (fieldLookup : IFieldLookup) condition conditionField comp value compErrors
    errors :
  Condition.field condition = Some conditionField ->
  Condition.conditionalOperator condition = Some comp ->
  Condition.value condition = Some value ->
  checkComparisonOperator fieldLookup comp conditionField (getRhsType (Some value))
    = Ok compErrors ->
  compErrors <> [] ->
  (exists message,
     compErrors =
       [toDecoration (TokenSymbol (ConditionalOperator.conditionToken comp)) message])
  /\ checkCondition fieldLookup condition errors = Ok (errors ++ compErrors)
  /\ (forall rest,
        checkConditions fieldLookup (condition :: rest) errors
        = checkConditions fieldLookup rest (errors ++ compErrors))
  /\ forall pre post,
       checkConditions fieldLookup (pre ++ condition :: post) [] =
         (before ← checkConditions fieldLookup pre [];
          after ← checkConditions fieldLookup post [];
          Ok (before ++ compErrors ++ after)).
Proof.
  intros Hfield Hcomp Hvalue Hcheck Hne.
  destruct (checkComparisonOperator_shape _ _ _ _ _ Hcheck)
    as [[entry Hentry] [Hnil|[message Hone]]]; [done|].
  assert (Hcond : forall pushed,
    checkCondition fieldLookup condition pushed = Ok (pushed ++ compErrors)).
  { intros pushed. unfold checkCondition.
    rewrite Hfield, (keyIn_own _ _ _ Hentry). simpl.
    rewrite (lookupFieldType_entry _ _ _ Hentry). simpl.
    rewrite Hcomp, Hvalue. simpl in Hcheck. rewrite Hcheck. simpl.
    by rewrite Hone. }
  split; [by exists message|]. split; [apply Hcond|].
  split; [intros rest; simpl; by rewrite Hcond|].
  intros pre post. rewrite checkConditions_app.
  destruct (checkConditions fieldLookup pre []) as [before|e]; simpl; [|done].
  rewrite Hcond. simpl.
  rewrite (checkConditions_append _ post (before ++ compErrors)).
  destruct (checkConditions fieldLookup post []) as [after|e]; simpl; [|done].
  by rewrite <- app_assoc.
Qed.

(** C8: on a value that is not a variable, with an expected type that is none
    of the ten handled types, [checkRhsValue] throws. *)
Theorem unhandled_type_throws value expectedType :
  instanceOf (Value.value value) Symbols.Variable_ = false ->
  ~ In expectedType
      [FieldType.String; FieldType.Integer; FieldType.DateTime; FieldType.PlainText;
       FieldType.Html; FieldType.TreePath; FieldType.History; FieldType.Double;
       FieldType.Guid; FieldType.Boolean] ->
  checkRhsValue value (Some expectedType)
  = Throw (UnexpectedFieldType (Some expectedType)).
Proof.
  intros Hvar Hother. unfold checkRhsValue.
  rewrite (asVariable_None _ Hvar).
  destruct expectedType; try reflexivity; exfalso; apply Hother; simpl; tauto.
Qed.

(** C10: on a variable that [definedVariables] does not hold, [checkRhsValue]
    returns: no decoration when the expected type is neither Integer nor
    Double, and the decoration that expects a Number otherwise. *)
Theorem undefined_variable_is_string_shaped value token expectedType :
  Value.value value = TokenSymbol token ->
  Token.cls token = Symbols.Variable_ ->
  lookupVariable definedVariables (toLocaleLowerCase (Token.text token)) = None ->
  mapType None = Symbols.String
  /\ checkRhsValue value (Some expectedType) =
       Ok (if decide (expectedType = FieldType.Integer
                      \/ expectedType = FieldType.Double)
           then [toDecoration (TokenSymbol token)
                   ("Expected value of type " +:+ getSymbolName Symbols.Number)]
           else []).
Proof.
  intros Hvalue Hcls Hundefined. split; [reflexivity|].
  unfold checkRhsValue. rewrite Hvalue, (asVariable_Some _ Hcls), Hundefined.
  destruct expectedType; reflexivity.
Qed.

(** ** Variable completion *)

Lemma indexOf_spec l x :
  (In x l /\ 0 <= indexOf l x) \/ (~ In x l /\ indexOf l x = -1).
Proof.
  induction l as [|y l IH]; simpl; [right; split; [tauto|done]|].
  destruct (decide (y = x)) as [->|Hne]; [left; split; [by left|done]|].
  destruct IH as [[Hin Hpos]|[Hout Hneg]].
  - left. split; [by right|]. destruct (indexOf l x <? 0) eqn:Hlt; lia.
  - right. split; [intros [?|?]; done|]. by rewrite Hneg.
Qed.

Lemma indexOf_found l x : (0 <=? indexOf l x) = true <-> In x l.
Proof.
  destruct (indexOf_spec l x) as [[Hin Hpos]|[Hout Hneg]].
  - split; [done|]. intros _. by apply Z.leb_le.
  - rewrite Hneg. split; [discriminate|done].
Qed.

Lemma suggestions_foldl type variables : forall suggestions,
  foldl (fun suggestions variable =>
           if variableHasType type variable then
             suggestions ++ [CompletionItem.mk variable CompletionItemKind.Variable_ None]
           else suggestions)
        suggestions variables
  = suggestions ++ map variableItem (List.filter (variableHasType type) variables).
Proof.
  induction variables as [|variable variables IH]; intros suggestions; simpl.
  - by rewrite app_nil_r.
  - rewrite IH. destruct (variableHasType type variable); simpl; [|done].
    by rewrite <- app_assoc.
Qed.

Lemma getStandardVariableSuggestions_filter type :
  getStandardVariableSuggestions type =
    map variableItem
      (List.filter (variableHasType type) (map fst definedVariables)).
Proof. unfold getStandardVariableSuggestions. by rewrite suggestions_foldl. Qed.

Lemma filter_all {A} (l : list A) : List.filter (fun _ => true) l = l.
Proof. induction l as [|x l IH]; simpl; [done|by rewrite IH]. Qed.

(** C6, as the code has it: [includeVariables] leaves the suggestions as they
    are unless the expected tokens hold the name of the variable symbol and
    the previous token is not a Group token; then it appends, in the order
    of the table, the declared variables whose type is the field type of the
    context when the cursor is in a condition and that field type is known,
    and all declared variables when the cursor is not in a condition or the
    field type is null. *)
Theorem includeVariables_appends ctx suggestions :
  let expected :=
    In (getSymbolName Symbols.Variable_)
       (ParseNext.expectedTokens (ICompletionContext.parseNext ctx)) in
  let afterGroup :=
    exists token,
      ICompletionContext.prevToken ctx = Some token
      /\ Token.cls token = Symbols.Group in
  let declared := map fst definedVariables in
  (~ (expected /\ ~ afterGroup) -> includeVariables ctx suggestions = suggestions)
  /\ (expected /\ ~ afterGroup ->
      (forall type,
         ICompletionContext.isInCondition ctx = true ->
         ICompletionContext.fieldType ctx = Some type ->
         includeVariables ctx suggestions =
           suggestions ++
             map variableItem
               (List.filter
                  (fun variable =>
                     bool_decide (lookupVariable definedVariables variable = Some type))
                  declared))
      /\ (ICompletionContext.isInCondition ctx = false
          \/ ICompletionContext.fieldType ctx = None ->
          includeVariables ctx suggestions = suggestions ++ map variableItem declared)).
Proof.
  intros expected afterGroup declared.
  assert (Hgroup : prevTokenInstanceOf ctx Symbols.Group = true <-> afterGroup).
  { unfold prevTokenInstanceOf, afterGroup, tokenInstanceOf.
    destruct (ICompletionContext.prevToken ctx) as [token|].
    - rewrite bool_decide_eq_true. split; [by exists token|].
      by intros (other & [= <-] & Hcls).
    - split; [discriminate|]. by intros (other & Hnone & _). }
  assert (Hguard :
    ((0 <=? indexOf (ParseNext.expectedTokens (ICompletionContext.parseNext ctx))
              (getSymbolName Symbols.Variable_))
     && negb (prevTokenInstanceOf ctx Symbols.Group)) = true
    <-> expected /\ ~ afterGroup).
  { rewrite andb_true_iff, negb_true_iff, indexOf_found, <- Hgroup.
    by rewrite not_true_iff_false. }
  unfold includeVariables. split.
  - intros Hno. apply not_iff_compat in Hguard. apply Hguard in Hno.
    apply not_true_is_false in Hno. by rewrite Hno.
  - intros Hyes. apply Hguard in Hyes. rewrite Hyes.
    rewrite getStandardVariableSuggestions_filter. unfold typeFilter. split.
    + by intros type -> ->.
    + intros [->| ->]; [|destruct (ICompletionContext.isInCondition ctx)];
        simpl; by rewrite filter_all.
Qed.

Lemma substring_all s : String.substring 0 (String.length s) s = s.
Proof. induction s as [|c s IH]; simpl; [done|by rewrite IH]. Qed.

Lemma replace_leading_at rest : replace "@" "" (String "@" rest) = rest.
Proof.
  assert (Hprefix : String.prefix "" rest = true) by by destruct rest.
  cbn. rewrite Hprefix, Nat.sub_0_r. apply substring_all.
Qed.

(** C7: [getCurrentVariableSuggestions] resolves to a list exactly when the
    previous token is a Variable token and the column before the cursor is
    the end column of that token, and to null in every other case; the list
    holds, for each standard suggestion, its label as it is and as insertion
    text the label with its first [@] removed, so a label that starts with
    [@] is inserted without it. *)
Theorem getCurrentVariableSuggestions_spec ctx position :
  (getCurrentVariableSuggestions ctx position <> None <->
   exists token,
     ICompletionContext.prevToken ctx = Some token
     /\ Token.cls token = Symbols.Variable_
     /\ Position.column position - 1 = Token.endColumn token)
  /\ forall suggestions,
       getCurrentVariableSuggestions ctx position = Some suggestions ->
       map CompletionItem.label suggestions
       = map CompletionItem.label (getStandardVariableSuggestions (typeFilter ctx))
       /\ Forall (fun s =>
                    CompletionItem.insertText s
                    = Some (replace "@" "" (CompletionItem.label s))
                    /\ forall rest,
                         CompletionItem.label s = String "@" rest ->
                         CompletionItem.insertText s = Some rest)
            suggestions.
Proof.
  unfold getCurrentVariableSuggestions.
  destruct (ICompletionContext.prevToken ctx) as [token|].
  2: { split; [|discriminate]. split; [done|]. by intros (other & Hnone & _). }
  destruct (tokenInstanceOf token Symbols.Variable_
            && (Position.column position - 1 =? Token.endColumn token)) eqn:Hguard.
  - apply andb_true_iff in Hguard as [Hcls Hcol].
    apply bool_decide_eq_true in Hcls. apply Z.eqb_eq in Hcol.
    split; [split; [by exists token|done]|].
    intros suggestions [= <-]. split.
    + rewrite map_map. simpl. done.
    + apply Forall_forall. intros s Hin. apply in_map_iff in Hin as (s0 & <- & _).
      simpl. split; [done|]. intros rest ->. by rewrite replace_leading_at.
  - split; [|discriminate]. split; [done|].
    intros (other & [= <-] & Hcls & Hcol).
    apply andb_false_iff in Hguard as [Hno|Hno].
    + unfold tokenInstanceOf in Hno. by rewrite bool_decide_eq_true_2 in Hno.
    + apply Z.eqb_neq in Hno. done.
Qed.

End Properties.

(** * The theorems on the sample inputs *)

(** [linkTypeField] between two other fields: both keys hold the hard-coded
    entry. *)
Lemma link_type_entry_last_write_witness :
  @getFieldComparisonLookup sampleExternals [effortField; linkTypeField; titleField]
    !! "link type" = Some (Some linkTypeEntry)
  /\ @getFieldComparisonLookup sampleExternals [effortField; linkTypeField; titleField]
       !! "system.links.linktype" = Some (Some linkTypeEntry).
Proof.
  apply (@link_type_entry_last_write sampleExternals
           [effortField] linkTypeField [titleField]).
  - reflexivity.
  - intros other [<-|[]] _ key [<-|[<-|[]]]; split; vm_compute; discriminate.
Defined.

(** C5 fails when a later field has the same lower-cased display name:
    the key of the display name holds the generic entry of String. *)
Lemma link_type_entry_overwritten :
  In linkTypeField [linkTypeField; shadowField]
  /\ WorkItemField.referenceName linkTypeField = "System.Links.LinkType"
  /\ @getFieldComparisonLookup sampleExternals [linkTypeField; shadowField]
       !! asciiLower (WorkItemField.name linkTypeField)
     = Some (compTypes FieldType.String)
  /\ @getFieldComparisonLookup sampleExternals [linkTypeField; shadowField]
       !! asciiLower (WorkItemField.name linkTypeField)
     <> Some (Some (IComparisonType.mk FieldType.String
                      [Symbols.Equals; Symbols.NotEquals] [] [])).
Proof.
  split; [by left|]. split; [reflexivity|].
  split; [vm_compute; reflexivity|vm_compute; discriminate].
Qed.

Lemma contains_against_field_witness :
  @checkCondition sampleExternals sampleLookup effortContainsEffort [] =
    Ok [toDecoration (TokenSymbol containsToken)
          "Valid comparisons are EQUALS, NOTEQUALS, GREATERTHAN, LESSTHAN, GREATEROREQ, LESSOREQ"].
Proof.
  apply (@contains_against_field_lists_valid_comparisons sampleExternals
           sampleLookup effortContainsEffort (fieldOf 1 "Effort")
           (ConditionalOperator.mk containsToken)
           (Value.mk (FieldSymbol (fieldOf 19 "Effort"))) (fieldOf 19 "Effort")
           FieldType.Double []).
  - simpl. tauto.
  - reflexivity.
  - vm_compute. reflexivity.
  - reflexivity.
  - reflexivity.
  - reflexivity.
  - reflexivity.
Defined.

(** C1 fails on the Double field Effort: [[Effort] Contains [Effort]] does
    not get the diagnostic of an empty operator set. *)
Lemma contains_against_field_not_no_valid_operation :
  sampleLookup !! "effort" = Some (compTypes FieldType.Double)
  /\ getRhsType (Condition.value effortContainsEffort) = field
  /\ ~ exists errors,
         @checkCondition sampleExternals sampleLookup effortContainsEffort [] = Ok errors
         /\ In (toDecoration (TokenSymbol containsToken)
                  "There is no valid operation for Effort and field") errors.
Proof.
  split; [vm_compute; reflexivity|]. split; [reflexivity|].
  intros (errors & Hcheck & Hin). vm_compute in Hcheck.
  injection Hcheck as <-. destruct Hin as [Heq|[]]. discriminate Heq.
Qed.

Lemma group_condition_witness :
  exists groupErrors allowErrors,
    @checkRhsGroup sampleExternals (ValueListNode titleInList None)
      (Some FieldType.Boolean) = Ok groupErrors
    /\ @checkAllowsGroup sampleExternals sampleLookup inToken (fieldOf 1 "Active")
       = Ok allowErrors
    /\ @checkCondition sampleExternals sampleLookup activeInTitle []
       = Ok ([] ++ groupErrors ++ allowErrors)
    /\ Forall (fun d => In (Decoration.target d) [Value.value titleInList]) groupErrors
    /\ Forall (fun d => Decoration.target d = TokenSymbol inToken) allowErrors.
Proof.
  apply (@group_condition_list_errors_first sampleExternals sampleLookup
           activeInTitle (fieldOf 1 "Active")
           (IComparisonType.mk FieldType.Boolean
              [Symbols.Equals; Symbols.NotEquals; Symbols.Ever]
              [Symbols.Equals; Symbols.NotEquals] [])
           (ValueListNode titleInList None) inToken []).
  - reflexivity.
  - vm_compute. reflexivity.
  - simpl. tauto.
  - left. reflexivity.
  - reflexivity.
  - reflexivity.
Defined.

(** C2 fails on [[Active] In ([Title])]: the decoration on the element of
    the list comes first, the decoration on the in-operator second. *)
Lemma group_operator_error_comes_last :
  @checkCondition sampleExternals sampleLookup activeInTitle [] =
    Ok [toDecoration (Value.value titleInList) "Values in list must be literals";
        toDecoration (TokenSymbol inToken) "Active does not support group comparisons"]
  /\ @checkCondition sampleExternals sampleLookup activeInTitle [] <>
       Ok [toDecoration (TokenSymbol inToken) "Active does not support group comparisons";
           toDecoration (Value.value titleInList) "Values in list must be literals"].
Proof.
  split; [vm_compute; reflexivity|vm_compute; discriminate].
Qed.

(** The spec's scenario [[Effort] = "abc"]: one decoration, which expects a
    NUMBER. *)
Lemma literal_value_witness :
  @checkCondition sampleExternals sampleLookup effortEqualsAbc [] =
    Ok [toDecoration (TokenSymbol abcToken) "Expected value of type NUMBER"].
Proof.
  apply (@literal_value_follows_type_mapping sampleExternals sampleLookup
           effortEqualsAbc (fieldOf 1 "Effort")
           (IComparisonType.mk FieldType.Double
              [Symbols.Equals; Symbols.NotEquals; Symbols.GreaterThan;
               Symbols.LessThan; Symbols.GreaterOrEq; Symbols.LessOrEq; Symbols.Ever]
              orderedFieldOps [Symbols.In])
           (ConditionalOperator.mk equalsToken) (Value.mk (TokenSymbol abcToken))
           abcToken []).
  - reflexivity.
  - vm_compute. reflexivity.
  - reflexivity.
  - reflexivity.
  - reflexivity.
  - discriminate.
  - vm_compute. reflexivity.
  - simpl. tauto.
Defined.

Lemma operator_error_witness :
  @checkCondition sampleExternals sampleLookup effortContainsEffort []
  = Ok [toDecoration (TokenSymbol containsToken)
          "Valid comparisons are EQUALS, NOTEQUALS, GREATERTHAN, LESSTHAN, GREATEROREQ, LESSOREQ"]
  /\ @checkConditions sampleExternals sampleLookup
       [effortEqualsAbc; effortContainsEffort; effortEqualsAbc] []
     = Ok [toDecoration (TokenSymbol abcToken) "Expected value of type NUMBER";
           toDecoration (TokenSymbol containsToken)
             "Valid comparisons are EQUALS, NOTEQUALS, GREATERTHAN, LESSTHAN, GREATEROREQ, LESSOREQ";
           toDecoration (TokenSymbol abcToken) "Expected value of type NUMBER"].
Proof.
  destruct (@operator_error_short_circuits sampleExternals sampleLookup
              effortContainsEffort (fieldOf 1 "Effort")
              (ConditionalOperator.mk containsToken)
              (Value.mk (FieldSymbol (fieldOf 19 "Effort")))
              [toDecoration (TokenSymbol containsToken)
                 "Valid comparisons are EQUALS, NOTEQUALS, GREATERTHAN, LESSTHAN, GREATEROREQ, LESSOREQ"]
              []) as (_ & Hcondition & _ & Hloop).
  - reflexivity.
  - reflexivity.
  - reflexivity.
  - vm_compute. reflexivity.
  - discriminate.
  - split; [exact Hcondition|].
    refine (eq_trans (Hloop [effortEqualsAbc] [effortEqualsAbc]) _).
    vm_compute. reflexivity.
Defined.

(** C9 fails on a field whose name is a property of [Object.prototype]: no
    field is registered under [constructor], so its lower-cased text is not
    a key that the lookup holds, yet the test with [in] finds it; the
    condition [[constructor] = 'abc'] is not skipped, the iteration throws a
    TypeError on the operators it reads, and the conditions after it are not
    checked. *)
Theorem constructor_field_is_not_skipped :
  sampleLookup !! asciiLower "constructor" = None
  /\ @keyIn sampleLookup (asciiLower "constructor") = true
  /\ @checkCondition sampleExternals sampleLookup constructorEqualsAbc []
     = Throw TypeError
  /\ @check sampleExternals sampleLookup
       ([constructorEqualsAbc; effortEqualsAbc], []) = Throw TypeError
  /\ @check sampleExternals sampleLookup ([effortEqualsAbc], [])
     = Ok [toDecoration (TokenSymbol abcToken) "Expected value of type NUMBER"].
Proof. repeat split; vm_compute; reflexivity. Qed.

Lemma unhandled_type_witness :
  @checkRhsValue sampleExternals (Value.mk (TokenSymbol abcToken))
    (Some (FieldType.Other 10))
  = Throw (UnexpectedFieldType (Some (FieldType.Other 10))).
Proof.
  apply (@unhandled_type_throws sampleExternals (Value.mk (TokenSymbol abcToken))
           (FieldType.Other 10)).
  - reflexivity.
  - simpl. intros [H|[H|[H|[H|[H|[H|[H|[H|[H|[H|[]]]]]]]]]]]; discriminate H.
Defined.

Lemma undefined_variable_witness :
  @mapType None = Symbols.String
  /\ @checkRhsValue sampleExternals (Value.mk (TokenSymbol nobodyToken))
       (Some FieldType.Integer)
     = Ok [toDecoration (TokenSymbol nobodyToken) "Expected value of type NUMBER"].
Proof.
  apply (@undefined_variable_is_string_shaped sampleExternals
           (Value.mk (TokenSymbol nobodyToken)) nobodyToken FieldType.Integer).
  - reflexivity.
  - reflexivity.
  - vm_compute. reflexivity.
Defined.

(** C6 fails in a condition on a field whose type is not known: the guard
    holds, no declared variable has the field type of the context, which is
    null, and yet all the declared variables are appended. *)
Lemma includeVariables_null_field_type :
  In (symbolName Symbols.Variable_)
     (ParseNext.expectedTokens (ICompletionContext.parseNext untypedContext))
  /\ @prevTokenInstanceOf untypedContext Symbols.Group = false
  /\ ICompletionContext.isInCondition untypedContext = true
  /\ @includeVariables sampleExternals untypedContext []
     = [variableItem "@me"; variableItem "@today"]
  /\ @includeVariables sampleExternals untypedContext []
     <> [] ++ map variableItem
                (List.filter
                   (fun variable =>
                      bool_decide (lookupVariable sampleVariables variable
                                   = ICompletionContext.fieldType untypedContext))
                   (map fst sampleVariables)).
Proof.
  split; [by left|]. split; [reflexivity|]. split; [reflexivity|].
  split; [vm_compute; reflexivity|vm_compute; discriminate].
Qed.

(** The spec's scenario of the cursor right after [@to] in a DateTime
    context. *)
Example current_variable_after_to :
  @getCurrentVariableSuggestions sampleExternals dateContext (Position.mk 1 15)
  = Some [CompletionItem.mk "@today" CompletionItemKind.Variable_ (Some "today")]
  /\ @getCurrentVariableSuggestions sampleExternals dateContext (Position.mk 1 16) = None.
Proof. split; vm_compute; reflexivity. Qed.

(** * Further properties of the code *)

Section FurtherProperties.
Context `{!Externals}.

(** ** The compatibility table and the field lookup *)

Lemma compTypes_handled type entry :
  compTypes type = Some entry ->
  In type handledTypes /\ IComparisonType.fieldType entry = type.
Proof.
  destruct type; cbv; intros [= <-]; repeat split; tauto.
Qed.

Lemma fieldEntry_handled workItemField entry :
  fieldEntry workItemField = Some entry ->
  In (IComparisonType.fieldType entry) handledTypes.
Proof.
  unfold fieldEntry. case_decide.
  - intros [= <-]. simpl. tauto.
  - intros Hentry. by destruct (compTypes_handled _ _ Hentry) as [Hin ->].
Qed.

Lemma addField_lookup (fieldLookup : IFieldLookup) workItemField key :
  addField fieldLookup workItemField !! key =
    if writesKey key workItemField then Some (fieldEntry workItemField)
    else fieldLookup !! key.
Proof.
  unfold addField, writesKey, fieldKeys. fold (fieldEntry workItemField).
  rewrite !lookup_insert. simpl.
  destruct (decide (toLocaleLowerCase (WorkItemField.name workItemField) = key))
    as [Hname|Hname].
  - rewrite bool_decide_eq_true_2; [done|]. right. by left.
  - destruct (decide (toLocaleLowerCase (WorkItemField.referenceName workItemField)
                      = key)) as [Href|Href].
    + rewrite bool_decide_eq_true_2; [done|]. by left.
    + rewrite bool_decide_eq_false_2; [done|]. intros [?|[?|[]]]; done.
Qed.

(** The loop of [getFieldComparisonLookup] from any state of the object: a
    key holds what the last field that writes it gives, or what it held. *)
Lemma foldl_addField_lookup fields : forall (fieldLookup : IFieldLookup) key,
  foldl addField fieldLookup fields !! key =
    match list.last (List.filter (writesKey key) fields) with
    | Some workItemField => Some (fieldEntry workItemField)
    | None => fieldLookup !! key
    end.
Proof.
  induction fields as [|workItemField fields IH]; intros fieldLookup key; [done|].
  simpl. rewrite IH, addField_lookup.
  destruct (writesKey key workItemField); [|done].
  rewrite last_cons. by destruct (list.last (List.filter (writesKey key) fields)).
Qed.



(** Every defined entry of a built lookup has a handled type. *)
Lemma built_entry_handled fields key entry :
  getFieldComparisonLookup fields !! key = Some (Some entry) ->
  In (IComparisonType.fieldType entry) handledTypes.
Proof.
  unfold getFieldComparisonLookup.
  rewrite foldl_addField_lookup, lookup_empty.
  destruct (list.last (List.filter (writesKey key) fields)) as [writer|]; [|done].
  intros [= Hentry]. by apply (fieldEntry_handled writer).
Qed.

(** X3: the table holds an entry exactly for the ten handled types, the
    entry of a type carries that type, every operator it allows against a
    field it also allows against a literal, and the only group operator is
    In. *)
Theorem compTypes_covers_handled_types type :
  (compTypes type = None <-> ~ In type handledTypes)
  /\ forall entry,
       compTypes type = Some entry ->
       IComparisonType.fieldType entry = type
       /\ incl (IComparisonType.field entry) (IComparisonType.literal entry)
       /\ incl (IComparisonType.group entry) [Symbols.In].
Proof.
  split.
  - destruct type; cbv; split; try discriminate; try tauto.
    intros _ [H0|[H0|[H0|[H0|[H0|[H0|[H0|[H0|[H0|[H0|[]]]]]]]]]]]; discriminate H0.
  - intros entry Hentry.
    destruct type; cbv in Hentry; try discriminate;
      injection Hentry as <-; simpl; (split; [done|]);
      split; intros op Hop; simpl in *; tauto.
Qed.

(** ** The operator checks *)

Lemma no_instance_iff token validOps :
  Nat.eqb (length (List.filter (tokenInstanceOf token) validOps)) 0 = true
  <-> ~ In (Token.cls token) validOps.
Proof.
  rewrite Nat.eqb_eq. induction validOps as [|op validOps IH]; simpl; [tauto|].
  unfold tokenInstanceOf at 1.
  destruct (decide (Token.cls token = op)) as [Heq|Hne].
  - rewrite bool_decide_eq_true_2 by done. simpl. split; [discriminate|].
    intros Hno. exfalso. apply Hno. by left.
  - rewrite bool_decide_eq_false_2 by done. rewrite IH. split.
    + intros Hno [Heq|Hin]; [by subst|done].
    + intros Hno Hin. apply Hno. by right.
Qed.

Lemma some_instance_iff token validOps :
  Nat.eqb (length (List.filter (tokenInstanceOf token) validOps)) 0 = false
  <-> In (Token.cls token) validOps.
Proof.
  destruct (in_dec Symbols.eq_dec (Token.cls token) validOps) as [Hin|Hout].
  - split; [done|]. intros _. apply not_true_is_false.
    rewrite no_instance_iff. tauto.
  - split; [|done]. intros Hsome. apply no_instance_iff in Hout. congruence.
Qed.

(** X4: the operator check of a scalar condition on a field with a defined
    entry passes exactly when the class of the operator token is one of the
    operators that the entry allows for the kind of the right-hand side. *)
Theorem operator_check_passes_iff_allowed
    (fieldLookup : IFieldLookup) comp conditionField rhsType entry :
  fieldLookup !! fieldKey conditionField = Some (Some entry) ->
  checkComparisonOperator fieldLookup comp conditionField rhsType = Ok []
  <-> In (Token.cls (ConditionalOperator.conditionToken comp))
         (validOpsFor entry rhsType).
Proof.
  intros Hentry. rewrite (checkComparisonOperator_entry _ _ _ _ _ Hentry).
  cbv zeta.
  destruct (validOpsFor entry rhsType) as [|op validOps] eqn:Hops;
    [simpl; split; [discriminate|tauto]|].
  change (Nat.eqb (length (op :: validOps)) 0) with false. cbv iota.
  destruct (Nat.eqb (length (List.filter
              (tokenInstanceOf (ConditionalOperator.conditionToken comp))
              (op :: validOps))) 0) eqn:Hnone.
  - apply no_instance_iff in Hnone. split; [discriminate|done].
  - apply some_instance_iff in Hnone. split; done.
Qed.

(** X5: the group check on a field with a defined entry passes exactly when
    the class of the in-operator token is one of the group operators of the
    entry; with no group operator the decoration is the one that says the
    field does not support group comparisons, otherwise the one that lists
    the valid comparisons. *)
Theorem group_check_passes_iff_allowed
    (fieldLookup : IFieldLookup) comp conditionField entry :
  fieldLookup !! fieldKey conditionField = Some (Some entry) ->
  (checkAllowsGroup fieldLookup comp conditionField = Ok []
   <-> In (Token.cls comp) (IComparisonType.group entry))
  /\ (IComparisonType.group entry = [] ->
      checkAllowsGroup fieldLookup comp conditionField =
        Ok [toDecoration (TokenSymbol comp)
              (Token.text (Field.identifier conditionField)
                 +:+ " does not support group comparisons")])
  /\ (IComparisonType.group entry <> [] ->
      ~ In (Token.cls comp) (IComparisonType.group entry) ->
      checkAllowsGroup fieldLookup comp conditionField =
        Ok [toDecoration (TokenSymbol comp)
              ("Valid comparisons are " +:+
                 String.concat ", " (map getSymbolName (IComparisonType.group entry)))]).
Proof.
  intros Hentry. unfold checkAllowsGroup.
  rewrite (lookupOps_entry _ _ _ _ Hentry). simpl.
  destruct (IComparisonType.group entry) as [|op validOps] eqn:Hops.
  - simpl. split; [split; [discriminate|tauto]|]. split; [done|]. by intros Hne.
  - change (Nat.eqb (length (op :: validOps)) 0) with false. cbv iota.
    destruct (Nat.eqb (length (List.filter (tokenInstanceOf comp) (op :: validOps))) 0)
      eqn:Hnone.
    + apply no_instance_iff in Hnone.
      split; [split; [discriminate|done]|]. split; [discriminate|done].
    + assert (Hin : In (Token.cls comp) (op :: validOps))
        by by apply some_instance_iff.
      split; [split; [done|done]|]. split; [discriminate|]. by intros _ Hout.
Qed.

(** X6: on a field whose entry allows no operator against a field (the link
    type field and the fields of type Html, PlainText, History and TreePath),
    a scalar condition whose right-hand side is a field gets the decoration
    that there is no valid operation, on the operator token, whatever the
    operator and the other field are. *)
Theorem no_operation_against_field
    (fieldLookup : IFieldLookup) condition conditionField entry comp value
    targetField errors :
  Condition.field condition = Some conditionField ->
  fieldLookup !! fieldKey conditionField = Some (Some entry) ->
  IComparisonType.field entry = [] ->
  Condition.conditionalOperator condition = Some comp ->
  Condition.value condition = Some value ->
  Value.value value = FieldSymbol targetField ->
  checkCondition fieldLookup condition errors =
    Ok (errors ++
          [toDecoration (TokenSymbol (ConditionalOperator.conditionToken comp))
             ("There is no valid operation for "
                +:+ Token.text (Field.identifier conditionField)
                +:+ " and field")]).
Proof.
  intros Hfield Hentry Hnone Hcomp Hvalue Htarget.
  unfold checkCondition. rewrite Hfield, (keyIn_own _ _ _ Hentry). simpl.
  rewrite (lookupFieldType_entry _ _ _ Hentry). simpl.
  rewrite Hcomp, Hvalue.
  rewrite (checkComparisonOperator_entry _ _ _ _ _ Hentry).
  unfold getRhsType. rewrite Htarget. simpl. rewrite Hnone. reflexivity.
Qed.

(** X7: in a scalar condition that compares a field with a field and whose
    operator is allowed, a field on the right that the test with [in] does
    not find gets no decoration, and a field with a defined entry gets the
    decoration that expects the type of the left field, on its identifier,
    exactly when the two types differ; so a field compared with itself gets
    none.  A name on the right that no field has but that [Object.prototype]
    holds always gets the decoration. *)
Theorem field_comparison_checks_types
    (fieldLookup : IFieldLookup) condition conditionField entry comp value
    targetField errors :
  Condition.field condition = Some conditionField ->
  fieldLookup !! fieldKey conditionField = Some (Some entry) ->
  Condition.conditionalOperator condition = Some comp ->
  In (Token.cls (ConditionalOperator.conditionToken comp))
     (IComparisonType.field entry) ->
  Condition.value condition = Some value ->
  Value.value value = FieldSymbol targetField ->
  let mismatch :=
    toDecoration (TokenSymbol (Field.identifier targetField))
      ("Expected field of type "
         +:+ fieldTypeName (IComparisonType.fieldType entry)) in
  (keyIn fieldLookup (fieldKey targetField) = false ->
   checkCondition fieldLookup condition errors = Ok errors)
  /\ (forall targetEntry,
        fieldLookup !! fieldKey targetField = Some (Some targetEntry) ->
        checkCondition fieldLookup condition errors =
          Ok (errors ++
                if decide (IComparisonType.fieldType targetEntry
                           = IComparisonType.fieldType entry) then []
                else [mismatch]))
  /\ (fieldKey targetField = fieldKey conditionField ->
      checkCondition fieldLookup condition errors = Ok errors)
  /\ (fieldLookup !! fieldKey targetField = None ->
      In (fieldKey targetField) objectPrototypeKeys ->
      checkCondition fieldLookup condition errors = Ok (errors ++ [mismatch])).
Proof.
  intros Hfield Hentry Hcomp Hallowed Hvalue Htarget mismatch.
  assert (Hpassed :
    checkComparisonOperator fieldLookup comp conditionField field = Ok []).
  { rewrite (checkComparisonOperator_entry _ _ _ _ _ Hentry). cbv zeta.
    change (validOpsFor entry field) with (IComparisonType.field entry).
    destruct (IComparisonType.field entry) as [|op validOps] eqn:Hops; [done|].
    change (Nat.eqb (length (op :: validOps)) 0) with false. cbv iota.
    destruct (Nat.eqb _ 0) eqn:Hnone; [|done].
    by apply no_instance_iff in Hnone. }
  assert (Hcheck : checkCondition fieldLookup condition errors =
    (fieldErrors ← checkRhsField fieldLookup targetField
                     (Some (IComparisonType.fieldType entry));
     Ok (errors ++ fieldErrors))).
  { unfold checkCondition. rewrite Hfield, (keyIn_own _ _ _ Hentry). simpl.
    rewrite (lookupFieldType_entry _ _ _ Hentry). simpl.
    rewrite Hcomp, Hvalue. unfold getRhsType. rewrite Htarget. simpl.
    rewrite Hpassed. simpl. reflexivity. }
  assert (Hdefined : forall targetEntry,
    fieldLookup !! fieldKey targetField = Some (Some targetEntry) ->
    checkCondition fieldLookup condition errors =
      Ok (errors ++
            if decide (IComparisonType.fieldType targetEntry
                       = IComparisonType.fieldType entry) then []
            else [mismatch])).
  { intros targetEntry Htargetentry. rewrite Hcheck. unfold checkRhsField.
    rewrite (keyIn_own _ _ _ Htargetentry),
      (lookupFieldType_entry _ _ _ Htargetentry).
    unfold mbind, Result_bind. cbv beta iota.
    destruct (decide (IComparisonType.fieldType targetEntry
                      = IComparisonType.fieldType entry)) as [Heq|Hne].
    - rewrite bool_decide_eq_false_2; [by rewrite app_nil_r|].
      intros Hdiff. apply Hdiff. by rewrite Heq.
    - rewrite bool_decide_eq_true_2; [done|]. by intros [= Heq]. }
  split; [|split; [|split]].
  - intros Hnone. rewrite Hcheck. unfold checkRhsField.
    rewrite Hnone. simpl. by rewrite app_nil_r.
  - exact Hdefined.
  - intros Hsame. rewrite (Hdefined entry) by (by rewrite Hsame).
    rewrite decide_True by done. by rewrite app_nil_r.
  - intros Hnone Hinherited. rewrite Hcheck. unfold checkRhsField, lookupFieldType.
    rewrite (keyIn_inherited _ _ Hinherited),
      (getProperty_inherited _ _ Hnone Hinherited).
    unfold mbind, Result_bind. cbv beta iota.
    by rewrite bool_decide_eq_true_2.
Qed.

(** ** The value checks *)

Lemma mapType_Number type : mapType (Some type) = Symbols.Number <-> numericType type.
Proof.
  unfold numericType. destruct type; simpl; split; try tauto; try discriminate;
    intros [?|?]; discriminate.
Qed.

Lemma mapType_cases type :
  mapType type = Symbols.Number \/ mapType type = Symbols.String.
Proof. destruct type as [[]|]; simpl; tauto. Qed.

(** X8: a variable that [definedVariables] holds is never checked by the
    switch over the expected type, so the value check returns for every
    expected type, also an unhandled one; it returns no decoration exactly
    when the declared type of the variable and the expected type are both
    numeric (Integer or Double) or both not. *)
Theorem declared_variable_checked_by_shape value token declared expectedType :
  Value.value value = TokenSymbol token ->
  Token.cls token = Symbols.Variable_ ->
  lookupVariable definedVariables (toLocaleLowerCase (Token.text token))
    = Some declared ->
  exists valueErrors,
    checkRhsValue value (Some expectedType) = Ok valueErrors
    /\ (valueErrors = [] <-> (numericType declared <-> numericType expectedType))
    /\ (valueErrors <> [] ->
        valueErrors =
          [toDecoration (TokenSymbol token)
             ("Expected value of type "
                +:+ getSymbolName (mapType (Some expectedType)))]).
Proof.
  intros Hvalue Hcls Hdeclared. unfold checkRhsValue.
  rewrite Hvalue, (asVariable_Some _ Hcls), Hdeclared.
  eexists. split; [reflexivity|].
  rewrite <- !mapType_Number.
  destruct (decide (mapType (Some declared) = mapType (Some expectedType)))
    as [Heq|Hne].
  - rewrite bool_decide_eq_true_2 by done. split; [|done].
    split; [intros _; by rewrite Heq|done].
  - rewrite bool_decide_eq_false_2 by done. split; [|done].
    split; [discriminate|]. intros Hiff. exfalso. apply Hne.
    destruct (mapType_cases (Some declared)) as [Hd|Hd],
             (mapType_cases (Some expectedType)) as [He|He]; try congruence.
    + apply Hiff in Hd. congruence.
    + apply Hiff in He. congruence.
Qed.

Lemma checkRhsValue_at_most_one value expectedType valueErrors :
  checkRhsValue value expectedType = Ok valueErrors -> (length valueErrors <= 1)%nat.
Proof.
  unfold checkRhsValue. intros Hcheck.
  repeat case_match; inversion Hcheck; simpl; lia.
Qed.

Lemma checkRhsField_at_most_one (fieldLookup : IFieldLookup) targetField expectedType
    fieldErrors :
  checkRhsField fieldLookup targetField expectedType = Ok fieldErrors ->
  (length fieldErrors <= 1)%nat.
Proof.
  unfold checkRhsField. intros Hcheck.
  destruct (keyIn fieldLookup (fieldKey targetField));
    [|inversion Hcheck; simpl; lia].
  destruct (lookupFieldType fieldLookup (fieldKey targetField)) as [targetType|e];
    simpl in Hcheck; [|discriminate].
  destruct (bool_decide (targetType ≠ expectedType)); inversion Hcheck; simpl; lia.
Qed.

Lemma elementErrors_at_most_one expectedType value :
  (length (elementErrors expectedType value) <= 1)%nat.
Proof.
  unfold elementErrors. destruct (instanceOfField (Value.value value)); [simpl; lia|].
  destruct (checkRhsValue value (Some expectedType)) as [valueErrors|e] eqn:Hcheck;
    [by eapply checkRhsValue_at_most_one|simpl; lia].
Qed.

Lemma flat_map_at_most_one {A B} (f : A -> list B) l :
  (forall x, (length (f x) <= 1)%nat) ->
  (length (flat_map f l) <= length l)%nat.
Proof.
  intros Hone. induction l as [|x l IH]; simpl; [lia|].
  rewrite length_app. specialize (Hone x). lia.
Qed.

Lemma checkRhsGroupFrom_elements expectedType valueList :
  In expectedType handledTypes ->
  forall errors,
    checkRhsGroupFrom valueList (Some expectedType) errors =
      Ok (errors ++ flat_map (elementErrors expectedType) (valueListValues valueList)).
Proof.
  intros Hin. induction valueList as [value|value rest IH] using ValueList_induction;
    intros errors; simpl; unfold elementErrors.
  - destruct (instanceOfField (Value.value value)); simpl; [done|].
    destruct (checkRhsValue_handled value expectedType Hin) as (es & -> & _).
    simpl. by rewrite app_nil_r.
  - destruct (instanceOfField (Value.value value)); simpl.
    + rewrite IH. by rewrite <- app_assoc.
    + destruct (checkRhsValue_handled value expectedType Hin) as (es & -> & _).
      simpl. rewrite IH. by rewrite <- app_assoc.
Qed.

(** X9: on a handled type the list check returns the decorations of the
    elements of the list, one element after the other in list order: an
    element that is a field gives the decoration that values in a list must
    be literals, every other element gives what the value check gives for
    it; so there is at most one decoration per element. *)
Theorem list_check_goes_element_by_element valueList expectedType :
  In expectedType handledTypes ->
  checkRhsGroup valueList (Some expectedType) =
    Ok (flat_map
          (fun value =>
             if instanceOfField (Value.value value) then
               [toDecoration (Value.value value) "Values in list must be literals"]
             else
               match checkRhsValue value (Some expectedType) with
               | Ok valueErrors => valueErrors
               | Throw _ => []
               end)
          (valueListValues valueList))
  /\ forall groupErrors,
       checkRhsGroup valueList (Some expectedType) = Ok groupErrors ->
       (length groupErrors <= length (valueListValues valueList))%nat.
Proof.
  intros Hin. unfold checkRhsGroup.
  rewrite (checkRhsGroupFrom_elements _ _ Hin). split; [reflexivity|].
  intros groupErrors [= <-].
  apply flat_map_at_most_one, elementErrors_at_most_one.
Qed.

(** X10: a condition with an operator and a single value gets at most one
    decoration, and the decorations pushed before are kept in front of it. *)
Theorem scalar_condition_at_most_one_decoration
    (fieldLookup : IFieldLookup) condition comp value errors result :
  Condition.conditionalOperator condition = Some comp ->
  Condition.value condition = Some value ->
  checkCondition fieldLookup condition errors = Ok result ->
  exists pushed, result = errors ++ pushed /\ (length pushed <= 1)%nat.
Proof.
  intros Hcomp Hvalue. unfold checkCondition. rewrite Hcomp, Hvalue.
  destruct (Condition.field condition) as [conditionField|];
    [|intros [= <-]; exists []; split; [by rewrite app_nil_r|simpl; lia]].
  destruct (keyIn fieldLookup (fieldKey conditionField)); simpl;
    [|intros [= <-]; exists []; split; [by rewrite app_nil_r|simpl; lia]].
  destruct (lookupFieldType fieldLookup (fieldKey conditionField)) as [type|e];
    simpl; [|discriminate].
  destruct (checkComparisonOperator fieldLookup comp conditionField
              (if instanceOfField (Value.value value) then field else literal))
    as [compErrors|e] eqn:Hop; simpl; [|discriminate].
  destruct (checkComparisonOperator_shape _ _ _ _ _ Hop)
    as [_ [->|[message ->]]]; simpl.
  - destruct (Value.value value) as [token|targetField].
    + destruct (checkRhsValue value type)
        as [valueErrors|e] eqn:Hcheck; simpl; [|discriminate].
      intros [= <-]. exists valueErrors. split; [done|].
      by eapply checkRhsValue_at_most_one.
    + destruct (checkRhsField fieldLookup targetField type)
        as [fieldErrors|e] eqn:Hcheck; simpl; [|discriminate].
      intros [= <-]. exists fieldErrors. split; [done|].
      by eapply checkRhsField_at_most_one.
  - intros [= <-]. eexists. split; [reflexivity|]. simpl. lia.
Qed.

(** ** The loop of [check] as a whole *)

(** X11: the decorations of a list of conditions are those of its parts put
    one after the other, and [check] returns the decorations of the
    conditional expressions followed by those of the link conditions; if a
    part throws, so does the whole. *)
Theorem check_concatenates (fieldLookup : IFieldLookup) :
  (forall first second,
     checkConditions fieldLookup (first ++ second) [] =
       (firstErrors ← checkConditions fieldLookup first [];
        secondErrors ← checkConditions fieldLookup second [];
        Ok (firstErrors ++ secondErrors)))
  /\ forall parseResult,
       check fieldLookup parseResult =
         (expressionErrors ←
            checkConditions fieldLookup
              (symbolsOfType parseResult ConditionalExpression) [];
          linkErrors ←
            checkConditions fieldLookup (symbolsOfType parseResult LinkCondition) [];
          Ok (expressionErrors ++ linkErrors)).
Proof.
  assert (Happ : forall first second,
    checkConditions fieldLookup (first ++ second) [] =
      (firstErrors ← checkConditions fieldLookup first [];
       secondErrors ← checkConditions fieldLookup second [];
       Ok (firstErrors ++ secondErrors))).
  { intros first second. rewrite checkConditions_app.
    destruct (checkConditions fieldLookup first []) as [firstErrors|e]; simpl;
      [|done].
    apply checkConditions_append. }
  split; [exact Happ|]. intros parseResult. unfold check. apply Happ.
Qed.

(** X12: when no condition of the parse result is on a field that the test
    with [in] finds in the lookup (a key that a field wrote, or a property of
    [Object.prototype]), [check] returns no decoration, whatever the
    operators and values of the conditions are. *)
Theorem check_silent_on_unknown_fields (fieldLookup : IFieldLookup) parseResult :
  (forall condition,
     In condition (symbolsOfType parseResult ConditionalExpression
                     ++ symbolsOfType parseResult LinkCondition) ->
     forall conditionField,
       Condition.field condition = Some conditionField ->
       keyIn fieldLookup (fieldKey conditionField) = false) ->
  check fieldLookup parseResult = Ok [].
Proof.
  unfold check.
  generalize (symbolsOfType parseResult ConditionalExpression
                ++ symbolsOfType parseResult LinkCondition).
  generalize (@nil Decoration.t).
  intros errors allConditions. revert errors.
  induction allConditions as [|condition rest IH]; intros errors Hunknown; simpl;
    [done|].
  assert (Hskip : checkCondition fieldLookup condition errors = Ok errors).
  { unfold checkCondition.
    destruct (Condition.field condition) as [conditionField|] eqn:Hfield; [|done].
    by rewrite (Hunknown condition (or_introl eq_refl) _ Hfield). }
  rewrite Hskip. simpl. apply IH. intros other Hin. apply Hunknown. by right.
Qed.

(** X18: a condition without a field, or on a field whose lower-cased text
    the test with [in] does not find in the lookup (neither a key that a
    field wrote nor a property of [Object.prototype]), pushes no decoration,
    and the loop goes on with the remaining conditions: the condition can be
    dropped from the list. *)
Theorem unknown_field_is_skipped (fieldLookup : IFieldLookup) condition :
  Condition.field condition = None
  \/ (exists conditionField,
        Condition.field condition = Some conditionField
        /\ fieldLookup !! fieldKey conditionField = None
        /\ ~ In (fieldKey conditionField) objectPrototypeKeys) ->
  forall errors,
    checkCondition fieldLookup condition errors = Ok errors
    /\ forall pre post,
         checkConditions fieldLookup (pre ++ condition :: post) errors
         = checkConditions fieldLookup (pre ++ post) errors.
Proof.
  intros Hskip.
  assert (Hcond : forall errors, checkCondition fieldLookup condition errors = Ok errors).
  { intros errors. unfold checkCondition.
    destruct Hskip as [->|(conditionField & -> & Hnone & Hown)]; [done|].
    by rewrite (proj2 (keyIn_false _ _) (conj Hnone Hown)). }
  intros errors. split; [apply Hcond|].
  intros pre post. rewrite !checkConditions_app.
  destruct (checkConditions fieldLookup pre errors) as [pushed|e]; simpl; [|done].
  by rewrite Hcond.
Qed.







(** X19: on a condition whose field has a name that no field wrote but that
    [Object.prototype] holds (such as [constructor]), the test with [in]
    succeeds and the type read is [undefined]: with an operator and a single
    value the iteration throws a TypeError when it reads the operators, and
    in group form it throws as well, so the loop returns nothing for a list
    that holds the condition. *)
Theorem inherited_key_raises (fieldLookup : IFieldLookup) condition conditionField
    errors :
  Condition.field condition = Some conditionField ->
  fieldLookup !! fieldKey conditionField = None ->
  In (fieldKey conditionField) objectPrototypeKeys ->
  (forall comp value,
     Condition.conditionalOperator condition = Some comp ->
     Condition.value condition = Some value ->
     checkCondition fieldLookup condition errors = Throw TypeError
     /\ forall rest,
          checkConditions fieldLookup (condition :: rest) errors = Throw TypeError)
  /\ (forall valueList inOperator,
        Condition.conditionalOperator condition = None
        \/ Condition.value condition = None ->
        Condition.valueList condition = Some valueList ->
        Condition.inOperator condition = Some inOperator ->
        exists e,
          checkCondition fieldLookup condition errors = Throw e
          /\ forall rest,
               checkConditions fieldLookup (condition :: rest) errors = Throw e).
Proof.
  intros Hfield Hnone Hinherited.
  pose proof (keyIn_inherited fieldLookup _ Hinherited) as Hfound.
  pose proof (getProperty_inherited _ _ Hnone Hinherited) as Hread.
  split.
  - intros comp value Hcomp Hvalue.
    assert (Hthrow : checkCondition fieldLookup condition errors = Throw TypeError).
    { unfold checkCondition. rewrite Hfield, Hfound. simpl.
      unfold lookupFieldType. rewrite Hread. simpl.
      rewrite Hcomp, Hvalue. unfold checkComparisonOperator, lookupOps.
      by rewrite Hread. }
    split; [exact Hthrow|]. intros rest. simpl. by rewrite Hthrow.
  - intros valueList inOperator Hscalar Hlist Hin.
    assert (Hthrow : exists e, checkCondition fieldLookup condition errors = Throw e).
    { unfold checkCondition. rewrite Hfield, Hfound. simpl.
      unfold lookupFieldType. rewrite Hread. simpl. rewrite Hlist, Hin.
      assert (Hgroup : exists e,
        (groupErrors ← checkRhsGroup valueList None;
         allowErrors ← checkAllowsGroup fieldLookup inOperator conditionField;
         Ok ((errors ++ groupErrors) ++ allowErrors)) = Throw e).
      { destruct (checkRhsGroup valueList None) as [groupErrors|e]; simpl;
          [|by eexists].
        unfold checkAllowsGroup, lookupOps. rewrite Hread. by eexists. }
      destruct Hscalar as [-> | ->]; [exact Hgroup|].
      by destruct (Condition.conditionalOperator condition). }
    destruct Hthrow as [e Hthrow]. exists e. split; [exact Hthrow|].
    intros rest. simpl. by rewrite Hthrow.
Qed.

(** ** Variable completion *)

Lemma filter_sublist {A} (keep : A -> bool) l : sublist (List.filter keep l) l.
Proof.
  induction l as [|x l IH]; simpl; [constructor|].
  destruct (keep x); by constructor.
Qed.

(** X15: the standard suggestions follow the table of the declared
    variables: with no type they are all the variables in table order, with
    a type they are a sub-sequence of them, each declared with that type;
    they all have the kind Variable and no insertion text. *)
Theorem standard_suggestions_follow_table :
  map CompletionItem.label (getStandardVariableSuggestions None)
    = map fst definedVariables
  /\ forall type,
       sublist (map CompletionItem.label (getStandardVariableSuggestions type))
               (map fst definedVariables)
       /\ Forall (fun s =>
                    CompletionItem.kind s = CompletionItemKind.Variable_
                    /\ CompletionItem.insertText s = None
                    /\ forall expected,
                         type = Some expected ->
                         lookupVariable definedVariables (CompletionItem.label s)
                         = Some expected)
            (getStandardVariableSuggestions type).
Proof.
  split.
  - rewrite getStandardVariableSuggestions_filter. simpl.
    rewrite filter_all, map_map. simpl. by rewrite map_id.
  - intros type. rewrite getStandardVariableSuggestions_filter.
    rewrite map_map. simpl. rewrite map_id. split; [apply filter_sublist|].
    apply Forall_forall. intros s Hin.
    apply in_map_iff in Hin as (variable & <- & Hin).
    apply filter_In in Hin as [_ Hhas]. simpl.
    split; [done|]. split; [done|]. intros expected ->.
    simpl in Hhas. by apply bool_decide_eq_true in Hhas.
Qed.

Lemma replace_other_char c s :
  "@"%char <> c -> replace "@" "" (String c s) = String c (replace "@" "" s).
Proof.
  intros Hne.
  change (replace "@" "" (String c s)) with
    (if (if ascii_dec "@" c then String.prefix "" s else false)
     then "" +:+ String.substring 1 (String.length (String c s) - 1) (String c s)
     else String c (replace "@" "" s)).
  by destruct (ascii_dec "@" c).
Qed.

Lemma replace_without_at s :
  ~ In "@"%char (list_ascii_of_string s) -> replace "@" "" s = s.
Proof.
  induction s as [|c s IH]; [done|].
  change (list_ascii_of_string (String c s)) with (c :: list_ascii_of_string s).
  intros Hout. rewrite replace_other_char.
  - rewrite IH; [done|]. intros Hin. apply Hout. by right.
  - intros Heq. apply Hout. by left.
Qed.

Lemma replace_first_at pre post :
  ~ In "@"%char (list_ascii_of_string pre) ->
  replace "@" "" (pre +:+ String "@" post) = pre +:+ post.
Proof.
  induction pre as [|c pre IH]; intros Hout.
  - apply replace_leading_at.
  - change (list_ascii_of_string (String c pre))
      with (c :: list_ascii_of_string pre) in Hout.
    change (String c pre +:+ String "@" post)
      with (String c (pre +:+ String "@" post)).
    rewrite replace_other_char.
    + rewrite IH; [done|]. intros Hin. apply Hout. by right.
    + intros Heq. apply Hout. by left.
Qed.

(** X16: in the suggestions of [getCurrentVariableSuggestions] only the first
    [@] of a label is removed for the insertion text, wherever it is: a label
    without [@] is inserted as it is, and a label with an [@] is inserted
    without its first one. *)
Theorem insertion_text_drops_first_at ctx position suggestions :
  getCurrentVariableSuggestions ctx position = Some suggestions ->
  Forall (fun s =>
            (~ In "@"%char (list_ascii_of_string (CompletionItem.label s)) ->
             CompletionItem.insertText s = Some (CompletionItem.label s))
            /\ forall pre post,
                 CompletionItem.label s = pre +:+ String "@" post ->
                 ~ In "@"%char (list_ascii_of_string pre) ->
                 CompletionItem.insertText s = Some (pre +:+ post))
         suggestions.
Proof.
  unfold getCurrentVariableSuggestions.
  destruct (ICompletionContext.prevToken ctx) as [token|]; [|discriminate].
  destruct (tokenInstanceOf token Symbols.Variable_
            && (Position.column position - 1 =? Token.endColumn token));
    [|discriminate].
  intros [= <-]. apply Forall_forall. intros s Hin.
  apply in_map_iff in Hin as (s0 & <- & _). simpl. split.
  - intros Hout. by rewrite replace_without_at.
  - intros pre post -> Hout. by rewrite replace_first_at.
Qed.

(** ** The table of the operations *)

(** X17: [operationLookup] and the compatibility table agree: an operator is
    listed with a target (literal, field or group) in [operationLookup]
    exactly when the entry of some field type allows it for that target. *)
Theorem operationLookup_agrees_with_compTypes target symbolClass :
  (exists opName, In (opName, (target, symbolClass)) operationLookup)
  <-> exists type entry,
        compTypes type = Some entry /\ In symbolClass (opsForTarget entry target).
Proof.
  split.
  - intros (opName & Hin). simpl in Hin.
    repeat (destruct Hin as [[= <- <- <-]|Hin];
            [first [ exists FieldType.String; eexists; split; [reflexivity|];
                     cbv; tauto
                   | exists FieldType.Html; eexists; split; [reflexivity|];
                     cbv; tauto
                   | exists FieldType.TreePath; eexists; split; [reflexivity|];
                     cbv; tauto ]|]).
    destruct Hin.
  - intros (type & entry & Hentry & Hin).
    unfold opsForTarget in Hin.
    destruct type; cbv in Hentry; try discriminate; injection Hentry as <-;
      repeat case_decide; subst; simpl in Hin;
      repeat (destruct Hin as [<-|Hin]); try destruct Hin;
      eexists; simpl;
      repeat match goal with
             | |- _ \/ _ => (left; reflexivity) || right
             end.
Qed.

End FurtherProperties.

(** * The further properties on the sample inputs *)

Lemma operator_check_witness :
  @checkComparisonOperator sampleExternals sampleLookup
    (ConditionalOperator.mk equalsToken) (fieldOf 1 "Effort") literal = Ok [].
Proof.
  refine (proj2 (@operator_check_passes_iff_allowed sampleExternals sampleLookup
                   (ConditionalOperator.mk equalsToken) (fieldOf 1 "Effort")
                   literal doubleEntry _) _).
  - vm_compute. reflexivity.
  - simpl. tauto.
Defined.

Lemma group_check_witness :
  @checkAllowsGroup sampleExternals sampleLookup inToken (fieldOf 1 "Active") =
    Ok [toDecoration (TokenSymbol inToken) "Active does not support group comparisons"].
Proof.
  destruct (@group_check_passes_iff_allowed sampleExternals sampleLookup inToken
              (fieldOf 1 "Active") booleanEntry) as (_ & Hempty & _).
  - vm_compute. reflexivity.
  - exact (Hempty eq_refl).
Defined.

Lemma no_operation_against_field_witness :
  @checkCondition sampleExternals sampleLookup linkTypeEqualsTitle [] =
    Ok [toDecoration (TokenSymbol equalsToken)
          "There is no valid operation for Link Type and field"].
Proof.
  apply (@no_operation_against_field sampleExternals sampleLookup
           linkTypeEqualsTitle (fieldOf 1 "Link Type") linkTypeEntry
           (ConditionalOperator.mk equalsToken)
           (Value.mk (FieldSymbol (fieldOf 15 "Title"))) (fieldOf 15 "Title") []).
  - reflexivity.
  - vm_compute. reflexivity.
  - reflexivity.
  - reflexivity.
  - reflexivity.
  - reflexivity.
Defined.

Lemma field_comparison_witness :
  @checkCondition sampleExternals sampleLookup titleEqualsEffort [] =
    Ok [toDecoration (TokenSymbol (identifierToken 11 "Effort"))
          "Expected field of type String"].
Proof.
  destruct (@field_comparison_checks_types sampleExternals sampleLookup
              titleEqualsEffort (fieldOf 1 "Title") stringEntry
              (ConditionalOperator.mk equalsToken)
              (Value.mk (FieldSymbol (fieldOf 11 "Effort"))) (fieldOf 11 "Effort") [])
    as (_ & Hdefined & _ & _).
  - reflexivity.
  - vm_compute. reflexivity.
  - reflexivity.
  - simpl. tauto.
  - reflexivity.
  - reflexivity.
  - apply (Hdefined doubleEntry). vm_compute. reflexivity.
Defined.

Lemma declared_variable_witness :
  exists valueErrors,
    @checkRhsValue sampleExternals (Value.mk (TokenSymbol meToken))
      (Some (FieldType.Other 10)) = Ok valueErrors
    /\ (valueErrors = []
        <-> (numericType FieldType.String <-> numericType (FieldType.Other 10)))
    /\ (valueErrors <> [] ->
        valueErrors =
          [toDecoration (TokenSymbol meToken)
             ("Expected value of type "
                +:+ symbolName (mapType (Some (FieldType.Other 10))))]).
Proof.
  apply (@declared_variable_checked_by_shape sampleExternals
           (Value.mk (TokenSymbol meToken)) meToken FieldType.String
           (FieldType.Other 10)).
  - reflexivity.
  - reflexivity.
  - vm_compute. reflexivity.
Defined.

Lemma list_check_witness :
  @checkRhsGroup sampleExternals mixedList (Some FieldType.Double) =
    Ok [toDecoration (TokenSymbol abcToken) "Expected value of type NUMBER";
        toDecoration (Value.value titleInList) "Values in list must be literals"].
Proof.
  destruct (@list_check_goes_element_by_element sampleExternals mixedList
              FieldType.Double) as [Helements _].
  - simpl. tauto.
  - exact Helements.
Defined.

Lemma scalar_condition_witness :
  exists pushed,
    [toDecoration (TokenSymbol abcToken) "Expected value of type NUMBER"]
    = [] ++ pushed
    /\ (length pushed <= 1)%nat.
Proof.
  apply (@scalar_condition_at_most_one_decoration sampleExternals sampleLookup
           effortEqualsAbc (ConditionalOperator.mk equalsToken)
           (Value.mk (TokenSymbol abcToken)) []
           [toDecoration (TokenSymbol abcToken) "Expected value of type NUMBER"]).
  - reflexivity.
  - reflexivity.
  - vm_compute. reflexivity.
Defined.



Lemma insertion_text_witness :
  Forall (fun s =>
            (~ In "@"%char (list_ascii_of_string (CompletionItem.label s)) ->
             CompletionItem.insertText s = Some (CompletionItem.label s))
            /\ forall pre post,
                 CompletionItem.label s = pre +:+ String "@" post ->
                 ~ In "@"%char (list_ascii_of_string pre) ->
                 CompletionItem.insertText s = Some (pre +:+ post))
         [CompletionItem.mk "@today" CompletionItemKind.Variable_ (Some "today")].
Proof.
  apply (@insertion_text_drops_first_at sampleExternals dateContext
           (Position.mk 1 15)).
  vm_compute. reflexivity.
Defined.

Lemma check_silent_witness :
  @check sampleExternals sampleLookup ([unknownEqualsAbc], [unknownEqualsAbc]) = Ok [].
Proof.
  apply (@check_silent_on_unknown_fields sampleExternals sampleLookup
           ([unknownEqualsAbc], [unknownEqualsAbc])).
  intros condition [<-|[<-|[]]] conditionField [= <-]; vm_compute; reflexivity.
Defined.

Lemma unknown_field_witness :
  @checkCondition sampleExternals sampleLookup unknownEqualsAbc [] = Ok []
  /\ @checkConditions sampleExternals sampleLookup
       ([effortEqualsAbc] ++ unknownEqualsAbc :: [effortContainsEffort]) []
     = @checkConditions sampleExternals sampleLookup
         ([effortEqualsAbc] ++ [effortContainsEffort]) [].
Proof.
  destruct (@unknown_field_is_skipped sampleExternals sampleLookup unknownEqualsAbc)
    with (errors := @nil Decoration.t) as [Hcondition Hloop].
  - right. exists (fieldOf 1 "Unknown").
    split; [reflexivity|]. split; [vm_compute; reflexivity|].
    vm_compute. intros Hin. repeat (destruct Hin as [Hin|Hin]; [discriminate Hin|]).
    exact Hin.
  - split; [exact Hcondition|].
    exact (Hloop [effortEqualsAbc] [effortContainsEffort]).
Defined.

Lemma inherited_key_witness :
  @checkCondition sampleExternals sampleLookup constructorEqualsAbc [] = Throw TypeError
  /\ @checkConditions sampleExternals sampleLookup
       [constructorEqualsAbc; effortEqualsAbc] [] = Throw TypeError.
Proof.
  destruct (@inherited_key_raises sampleExternals sampleLookup constructorEqualsAbc
              (fieldOf 1 "constructor") []) as [Hscalar _].
  - reflexivity.
  - vm_compute. reflexivity.
  - left. reflexivity.
  - destruct (Hscalar (ConditionalOperator.mk equalsToken)
                (Value.mk (TokenSymbol abcToken)) eq_refl eq_refl)
      as [Hcondition Hloop].
    split; [exact Hcondition|exact (Hloop [effortEqualsAbc])].
Defined.
